(** * Gistify summarizer (summarize.py): shallow embedding and properties

    The content-acquisition pipeline of [summarize.py] is embedded as a
    small reader/state/exit monad.  Time stamps and the wall clock are whole
    seconds ([Z]); every value produced by [time.time()] that the claims use
    is an integer-valued float, for which Python's subtraction and
    comparisons are exact.  Effects that only matter through their order
    (printing, probing the file system, network requests, sleeping) are
    recorded in a trace of events. *)

From Stdlib Require Import String Ascii ZArith List Bool Lia.
Import ListNotations.
Local Open Scope string_scope.
Local Open Scope Z_scope.
Local Set Warnings "-register-all".

(* ------------------------------------------------------------------ *)
(** ** Python values and string helpers *)

(** JSON values as [json.loads] returns them. *)
Inductive json : Type :=
| JNull
| JBool (b : bool)
| JNum (z : Z)
| JStr (s : string)
| JArr (l : list json)
| JObj (kv : list (string * json)).

(** Python truthiness of a decoded JSON value. *)
Definition truthy (j : json) : bool :=
  match j with
  | JNull => false
  | JBool b => b
  | JNum z => negb (z =? 0)
  | JStr s => negb (String.eqb s "")
  | JArr l => match l with [] => false | _ => true end
  | JObj kv => match kv with [] => false | _ => true end
  end.

(** [d.get(k, default)] on a dict built from a JSON object: on duplicate
    keys the last occurrence wins. *)
Definition dict_lookup (kv : list (string * json)) (k : string) : option json :=
  fold_left (fun acc p => if String.eqb k (fst p) then Some (snd p) else acc) kv None.

Definition dict_get (kv : list (string * json)) (k : string) (d : json) : json :=
  match dict_lookup kv k with
  | Some v => v
  | None => d
  end.

(** [str.startswith(p)] *)
Definition startswith (p s : string) : bool := String.prefix p s.

(** [str.isspace] on one ASCII character: 9..13, 28..31 and 32. *)
Definition py_isspace (c : ascii) : bool :=
  let n := nat_of_ascii c in
  ((9 <=? n) && (n <=? 13))%nat || ((28 <=? n) && (n <=? 31))%nat || (n =? 32)%nat.

Fixpoint drop_spaces (l : list ascii) : list ascii :=
  match l with
  | [] => []
  | c :: l' => if py_isspace c then drop_spaces l' else l
  end.

(** [str.strip()] *)
Definition py_strip (s : string) : string :=
  string_of_list_ascii
    (rev (drop_spaces (rev (drop_spaces (list_ascii_of_string s))))).

(** [len(s) < n] and [not s] *)
Definition py_len (s : string) : Z := Z.of_nat (String.length s).
Definition py_not_str (s : string) : bool := String.eqb s "".

(** Last path component, as [Path.name]. *)
Fixpoint basename_acc (acc s : string) : string :=
  match s with
  | EmptyString => acc
  | String c s' => if Ascii.eqb c "/"%char then basename_acc "" s'
                   else basename_acc (acc ++ String c "") s'
  end.
Definition basename (s : string) : string := basename_acc "" s.

(* ------------------------------------------------------------------ *)
(** ** The world: read-only environment, mutable state, effects *)

(** State of [.rate_limit_log]: absent; unreadable ([OSError]) or not
    JSON ([JSONDecodeError]), both caught; bytes that are not valid text
    ([UnicodeDecodeError] from [read_text], not caught); a JSON array of
    numeric time stamps, as [record_request] writes it; or any other JSON
    value, which the pruning comprehension then iterates. *)
Inductive rate_file : Type :=
| RFMissing
| RFCorrupt
| RFUndecodable
| RFList (ts : list Z)
| RFJson (j : json).

(** State of [~/.scholar-proxies.json]: absent, unreadable ([OSError]),
    bytes that are not valid text ([UnicodeDecodeError] from [read_text]),
    or text that [json.loads] decodes ([Some]) or rejects ([None]). *)
Inductive proxy_file : Type :=
| PFMissing
| PFOSError
| PFBadText
| PFText (parsed : option json).

(** An HTTP response of [requests]: status, raw body and decoded JSON body
    ([None] when [resp.json()] raises). *)
Record response : Type := mkResponse {
  status_code : Z;
  content : string;
  json_body : option json
}.

(** [resp.ok]: [raise_for_status()] raises for a status in 400..599 only. *)
Definition resp_ok (r : response) : bool :=
  negb ((400 <=? status_code r) && (status_code r <? 600)).

(** The environment the program reads but never changes: the file system,
    the proxy configuration file, pdfminer, the network, the browser and
    the random generator. *)
Record env : Type := mkEnv {
  fs_exists : string -> option bool;    (* Path.exists(); None: an OSError it
                                           does not swallow, e.g. PermissionError *)
  fs_size : string -> Z;                (* Path.stat().st_size *)
  path_resolve : string -> string;      (* Path.resolve() *)
  path_expanduser : string -> option string;
      (* Path.expanduser(); None: RuntimeError, e.g. for an unknown ~user *)
  proxy_cfg : proxy_file;
  pdf_path_text : string -> option string;   (* extract_text(path); None: raises *)
  pdf_bytes_text : string -> option string;  (* extract_text on downloaded bytes *)
  http_get : string -> response;        (* requests.get(url) *)
  http_post : string -> response;       (* requests.post(API, json={"text": c}) *)
  page_goto : string -> option (string * option string);
      (* page.goto + innerText and title; None: navigation timeout *)
  rand_draw : nat                       (* random.choice draws index rand_draw mod len *)
}.

(** Mutable state: the clock, the rate-limit log and [_PROXY_FORCE]. *)
Record state : Type := mkState {
  clock : Z;
  rate_log : rate_file;
  proxy_force : option bool
}.

Inductive event : Type :=
| EvStdout (msg : string)
| EvStderr (msg : string)
| EvSleep (secs : Z)
| EvExists (path : string)
| EvStat (path : string)
| EvReadPdf (path : string)
| EvHttpGet (url : string)
| EvHttpPost (url : string)
| EvGoto (url : string).

(** How a run stops early: [sys.exit(code)] or an uncaught exception
    (which makes the interpreter exit with status 1). *)
Inductive halt : Type :=
| SysExit (code : Z) (msg : string)
| Raise (exn : string).

Definition exit_status (h : halt) : Z :=
  match h with SysExit c _ => c | Raise _ => 1 end.

Inductive res (A : Type) : Type :=
| Ok (a : A)
| Halt (h : halt).
Arguments Ok {A} a.
Arguments Halt {A} h.

Record out (A : Type) : Type := mkOut {
  res_of : res A;
  world_of : state;
  trace_of : list event
}.
Arguments mkOut {A} _ _ _.
Arguments res_of {A} _.
Arguments world_of {A} _.
Arguments trace_of {A} _.

Definition M (A : Type) : Type := env -> state -> out A.

Definition ret {A} (a : A) : M A := fun _ s => mkOut (Ok a) s [].

Definition bind {A B} (m : M A) (k : A -> M B) : M B :=
  fun e s =>
    match m e s with
    | mkOut (Ok a) s1 t1 =>
        let o := k a e s1 in mkOut (res_of o) (world_of o) (app t1 (trace_of o))
    | mkOut (Halt h) s1 t1 => mkOut (Halt h) s1 t1
    end.

Notation "'let*' x ':=' m 'in' k" := (bind m (fun x => k))
  (at level 200, x name, m at level 100, k at level 200).
Notation "m ;; k" := (bind m (fun _ => k)) (at level 100, right associativity).

Definition emit (ev : event) : M unit := fun _ s => mkOut (Ok tt) s [ev].
Definition ask {A} (f : env -> A) : M A := fun e s => mkOut (Ok (f e)) s [].
Definition gets {A} (f : state -> A) : M A := fun _ s => mkOut (Ok (f s)) s [].
Definition halt_with {A} (h : halt) : M A := fun _ s => mkOut (Halt h) s [].
Definition sys_exit {A} (code : Z) (msg : string) : M A := halt_with (SysExit code msg).
Definition raise {A} (exn : string) : M A := halt_with (Raise exn).

(** [time.time()] *)
Definition time_time : M Z := gets clock.

(** [time.sleep(d)]: the clock moves by [d]. *)
Definition sleep (d : Z) : M unit :=
  fun _ s => mkOut (Ok tt) (mkState (clock s + d) (rate_log s) (proxy_force s)) [EvSleep d].

Definition write_rate_log (f : rate_file) : M unit :=
  fun _ s => mkOut (Ok tt) (mkState (clock s) f (proxy_force s)) [].

Definition set_proxy_force (f : option bool) : M unit :=
  fun _ s => mkOut (Ok tt) (mkState (clock s) (rate_log s) f) [].

(** [Path.exists()] and [Path.stat().st_size]: probes of the file system. *)
Definition path_exists (p : string) : M bool :=
  emit (EvExists p);;
  let* r := ask (fun e => fs_exists e p) in
  match r with
  | Some b => ret b
  | None => raise "OSError"
  end.
Definition stat_size (p : string) : M Z :=
  emit (EvStat p);; ask (fun e => fs_size e p).

(* ------------------------------------------------------------------ *)
(** ** Rate limiting *)

Definition MIN_INTERVAL_SECONDS : Z := 5.
Definition MAX_REQUESTS_PER_HOUR : Z := 10.
Definition window : Z := 3600.

(** [timestamps = []; if exists: try json.loads(...) except: []] *)
(** What iterating a decoded JSON value in [[ts for ts in timestamps if
    now - ts < window]] yields: the numbers of an array ([True] and [False]
    count as 1 and 0), nothing for an empty string or object; [None] when
    the comprehension raises [TypeError] (a non-iterable value, or an
    element that is not a number). *)
Definition json_timestamps (j : json) : option (list Z) :=
  match j with
  | JArr l =>
      fold_right (fun x acc =>
        match x, acc with
        | JNum z, Some ts => Some (z :: ts)
        | JBool b, Some ts => Some ((if b then 1 else 0) :: ts)
        | _, _ => None
        end) (Some []) l
  | JStr EmptyString => Some []
  | JObj [] => Some []
  | _ => None
  end.

(** The time stamps the log yields; [None] when reading or pruning it
    raises. *)
Definition rate_history (f : rate_file) : option (list Z) :=
  match f with
  | RFMissing => Some []
  | RFCorrupt => Some []
  | RFUndecodable => None
  | RFList ts => Some ts
  | RFJson j => json_timestamps j
  end.

Definition rate_entries (f : rate_file) : list Z :=
  match rate_history f with Some ts => ts | None => [] end.

(** [timestamps = []; if exists: try json.loads(read_text()) except
    (JSONDecodeError, OSError): []]; the [TypeError] of a value the
    comprehension cannot iterate is raised here, as nothing happens in
    between. *)
Definition read_rate_log : M (list Z) :=
  let* f := gets rate_log in
  match f with
  | RFMissing => ret []
  | RFCorrupt => ret []
  | RFUndecodable => raise "UnicodeDecodeError"
  | RFList ts => ret ts
  | RFJson j =>
      match json_timestamps j with
      | Some ts => ret ts
      | None => raise "TypeError"
      end
  end.

(** [[ts for ts in timestamps if now - ts < window]] *)
Definition prune (now : Z) (ts : list Z) : list Z :=
  filter (fun t => now - t <? window) ts.

(** [max(xs)] and [min(xs)] of a non-empty list. *)
Definition py_max (xs : list Z) : Z :=
  match xs with [] => 0 | x :: xs' => fold_left Z.max xs' x end.
Definition py_min (xs : list Z) : Z :=
  match xs with [] => 0 | x :: xs' => fold_left Z.min xs' x end.

(** [check_rate_limit()]; the messages keep their fixed text only. *)
Definition check_rate_limit : M unit :=
  let* now := time_time in
  let* ts0 := read_rate_log in
  let timestamps := prune now ts0 in
  (match timestamps with
   | [] => ret tt
   | _ :: _ =>
       let elapsed := now - py_max timestamps in
       if elapsed <? MIN_INTERVAL_SECONDS then
         let wait := MIN_INTERVAL_SECONDS - elapsed in
         emit (EvStdout "Rate limit: waiting between requests...");;
         sleep wait
       else ret tt
   end);;
  if MAX_REQUESTS_PER_HOUR <=? Z.of_nat (length timestamps) then
    let oldest := py_min timestamps in
    let retry_after := window - (now - oldest) in
    emit (EvStderr "Rate limit reached (10 requests/hour). Try again later.");;
    sys_exit 1 ""
  else ret tt.

(** [record_request()] *)
Definition record_request : M unit :=
  let* now := time_time in
  let* ts0 := read_rate_log in
  let timestamps := prune now ts0 in
  write_rate_log (RFList (app timestamps [now])).

(* ------------------------------------------------------------------ *)
(** ** Proxy rotation *)

Definition default_proxy_config : json :=
  JObj [("enabled", JBool false); ("proxies", JArr [])].

(** [_load_proxy_config()]: [FileNotFoundError], [JSONDecodeError] and
    [OSError] give the default; a [UnicodeDecodeError] is not caught. *)
Definition load_proxy_config : M json :=
  let* f := ask proxy_cfg in
  match f with
  | PFMissing => ret default_proxy_config
  | PFOSError => ret default_proxy_config
  | PFBadText => raise "UnicodeDecodeError"
  | PFText None => ret default_proxy_config
  | PFText (Some j) => ret j
  end.

(** [config.get(k, d)]: only a dict has [.get]. *)
Definition py_get (config : json) (k : string) (d : json) : M json :=
  match config with
  | JObj kv => ret (dict_get kv k d)
  | _ => raise "AttributeError"
  end.

(** [random.choice(seq)]: [seq[randbelow(len(seq))]]. *)
Definition random_choice (seq : json) : M json :=
  let* i := ask rand_draw in
  match seq with
  | JArr l => ret (nth (i mod length l) l JNull)
  | JStr s =>
      match String.get (i mod String.length s) s with
      | Some c => ret (JStr (String c ""))
      | None => raise "IndexError"
      end
  | JObj _ => raise "KeyError"
  | _ => raise "TypeError"
  end.

(** [_get_proxy_url()] *)
Definition get_proxy_url : M (option json) :=
  let* config := load_proxy_config in
  let* force := gets proxy_force in
  let* enabled :=
    match force with
    | Some b => ret (JBool b)
    | None => py_get config "enabled" (JBool false)
    end in
  if negb (truthy enabled) then ret None else
  let* proxies := py_get config "proxies" (JArr []) in
  if negb (truthy proxies) then ret None else
  let* choice := random_choice proxies in
  ret (Some choice).

(** [_get_proxy()]: the [requests] proxies dict, here just the URL. *)
Definition get_proxy : M (option json) :=
  let* url := get_proxy_url in
  match url with
  | None => ret None
  | Some u => if truthy u then ret (Some u) else ret None
  end.

(* ------------------------------------------------------------------ *)
(** ** Academic URL rewriting

    [re.match] of the pattern [https?://arxiv\.org/KIND/(.+?)], then an
    optional non-capturing group [\?.*] (a query string), then [$].
    [re.match] anchors at the start; [.] matches any character except a
    newline; [$] matches at the end or before a final newline. *)

Definition NL : ascii := "010"%char.

Fixpoint strip_prefix (p s : string) : option string :=
  match p, s with
  | EmptyString, _ => Some s
  | String a p', String b s' => if Ascii.eqb a b then strip_prefix p' s' else None
  | String _ _, EmptyString => None
  end.

(** [$] at the current position. *)
Definition dollar_ok (s : string) : bool :=
  match s with
  | EmptyString => true
  | String c EmptyString => Ascii.eqb c NL
  | _ => false
  end.

(** [.*$] *)
Fixpoint dotstar_dollar (s : string) : bool :=
  match s with
  | EmptyString => true
  | String c s' => if Ascii.eqb c NL then String.eqb s' "" else dotstar_dollar s'
  end.

(** The optional query group, then [$]: the group is tried first, then skipped. *)
Definition query_then_end (s : string) : bool :=
  match s with
  | String c s' => (Ascii.eqb c "?"%char && dotstar_dollar s') || dollar_ok s
  | EmptyString => dollar_ok s
  end.

(** The lazy group [(.+?)]: the shortest non-empty newline-free prefix
    after which the rest of the pattern matches. *)
Fixpoint lazy_group (acc s : string) : option string :=
  match s with
  | EmptyString => None
  | String c s' =>
      if Ascii.eqb c NL then None else
      let acc' := acc ++ String c "" in
      if query_then_end s' then Some acc' else lazy_group acc' s'
  end.

(** [https?://]: trying [https] first, then [http]. *)
Definition scheme_rest (url : string) : option string :=
  match strip_prefix "https://" url with
  | Some r => Some r
  | None => strip_prefix "http://" url
  end.

Definition arxiv_match (kind url : string) : option string :=
  match scheme_rest url with
  | None => None
  | Some r =>
      match strip_prefix ("arxiv.org/" ++ kind ++ "/") r with
      | None => None
      | Some r' => lazy_group "" r'
      end
  end.

(** [_rewrite_to_pdf_url(url)] *)
Definition rewrite_to_pdf_url (url : string) : option string :=
  match arxiv_match "abs" url with
  | Some g => Some ("https://arxiv.org/pdf/" ++ g)
  | None =>
      match arxiv_match "html" url with
      | Some g => Some ("https://arxiv.org/pdf/" ++ g)
      | None => None
      end
  end.

Example rewrite_abs :
  rewrite_to_pdf_url "https://arxiv.org/abs/1234.5678" = Some "https://arxiv.org/pdf/1234.5678".
Proof. reflexivity. Qed.
Example rewrite_html_query :
  rewrite_to_pdf_url "http://arxiv.org/html/2301.00001v2?x=1" = Some "https://arxiv.org/pdf/2301.00001v2".
Proof. reflexivity. Qed.
Example rewrite_other :
  rewrite_to_pdf_url "https://example.com/abs/1" = None.
Proof. reflexivity. Qed.

(* ------------------------------------------------------------------ *)
(** ** Content extraction *)

(** [_download_pdf_text(url)]; the temporary file is written from
    [resp.content], read by pdfminer and unlinked. *)
Definition download_pdf_text (url : string) : M (string * option string) :=
  emit (EvStdout ("Downloading PDF: " ++ url));;
  let* proxies := get_proxy in
  emit (EvHttpGet url);;
  let* resp := ask (fun e => http_get e url) in
  if negb (resp_ok resp) then
    emit (EvStderr "Failed to download PDF (HTTP status)");;
    sys_exit 1 ""
  else
  let* text := ask (fun e => pdf_bytes_text e (content resp)) in
  match text with
  | None => raise "PDFSyntaxError"
  | Some t => ret (py_strip t, None)
  end.

(** [_launch_browser(p)] picks the browser's proxy; the rest of it only
    configures the browser. *)
Definition launch_browser : M (option json) := get_proxy_url.

(** [_extract_text_from_url(url)]; [_wait_for_cloudflare] and
    [browser.close()] do not change the returned value and are left out.
    [_rewrite_to_pdf_url] never returns an empty string, so [if pdf_url]
    is the [Some] case. *)
Definition extract_text_from_url (url : string) : M (string * option string) :=
  match rewrite_to_pdf_url url with
  | Some pdf_url => download_pdf_text pdf_url
  | None =>
      emit (EvStdout ("Extracting content from URL: " ++ url));;
      let* proxy := launch_browser in
      emit (EvGoto url);;
      let* r := ask (fun e => page_goto e url) in
      match r with
      | None => raise "TimeoutError"
      | Some (text, page_title) =>
          (if py_not_str text || (py_len text <? 50) then
             emit (EvStderr "Warning: extracted very little text from the page.")
           else ret tt);;
          ret (text, page_title)
      end
  end.

Definition MAX_PDF_BYTES : Z := 50 * 1024 * 1024.

(** [_extract_text_from_pdf(pdf_path)] *)
Definition extract_text_from_pdf (pdf_path : string) : M string :=
  let* pdf_file := ask (fun e => path_resolve e pdf_path) in
  let* ex := path_exists pdf_file in
  if negb ex then
    emit (EvStderr ("File not found: " ++ pdf_file));;
    sys_exit 1 ""
  else
  let* size := stat_size pdf_file in
  if MAX_PDF_BYTES <? size then
    emit (EvStderr "File too large (>50MB).");;
    sys_exit 1 ""
  else
  emit (EvStdout ("Extracting text from PDF: " ++ basename pdf_file));;
  emit (EvReadPdf pdf_file);;
  let* text := ask (fun e => pdf_path_text e pdf_file) in
  match text with
  | None => raise "PDFSyntaxError"
  | Some t =>
      (if py_not_str t || (py_len (py_strip t) <? 50) then
         emit (EvStderr "Warning: extracted very little text from the PDF.")
       else ret tt);;
      ret (py_strip t)
  end.

(* ------------------------------------------------------------------ *)
(** ** Gistify API call *)

Definition GISTIFY_API_URL : string :=
  "https://tourmaline-gaufre-130bc5.netlify.app/.netlify/functions/summarize".

(** [summarize_content(content, debug)]; the debug output only prints. *)
Definition summarize_content (text : string) (debug : bool) : M json :=
  emit (EvStdout "Requesting summary from Gistify API...");;
  let* proxies := get_proxy in
  emit (EvHttpPost GISTIFY_API_URL);;
  let* resp := ask (fun e => http_post e text) in
  (if debug then emit (EvStdout "Gistify API response status") else ret tt);;
  if status_code resp =? 429 then
    emit (EvStderr "Error: rate limited by Gistify API. Try again later.");;
    sys_exit 1 ""
  else if negb (resp_ok resp) then
    emit (EvStderr "Gistify API error");;
    sys_exit 1 ""
  else
  let* data :=
    match json_body resp with
    | None => raise "JSONDecodeError"
    | Some j => ret j
    end in
  let* summary := py_get data "summary" (JStr "") in
  if negb (truthy summary) then
    emit (EvStderr "Error: no summary received from server.");;
    sys_exit 1 ""
  else ret summary.

(* ------------------------------------------------------------------ *)
(** ** Input classification and the pipeline *)

(** [_is_local_file(input_str)] *)
Definition is_local_file (input_str : string) : M bool :=
  if startswith "http://" input_str || startswith "https://" input_str then ret false
  else
  let* p := ask (fun e => path_expanduser e input_str) in
  match p with
  | Some p => path_exists p
  | None => raise "RuntimeError"
  end.

(** [main()] from setting [_PROXY_FORCE] to [record_request()]; what
    follows only renders and writes the Markdown output.  [input] is
    [args.input] ([None] when absent); [parser.error] exits with status 2. *)
Definition main_pipeline (input : option string) (debug : bool) (use_proxy : option bool)
  : M (json * string * option string) :=
  set_proxy_force use_proxy;;
  let* input_str :=
    match input with
    | None => sys_exit 2 "Please provide a URL or PDF file path"
    | Some i => if py_not_str i then sys_exit 2 "Please provide a URL or PDF file path"
                else ret i
    end in
  check_rate_limit;;
  let* local := is_local_file input_str in
  let* acquired :=
    if local then
      let* c := extract_text_from_pdf input_str in
      let* r := ask (fun e => path_resolve e input_str) in
      ret (c, None, "file://" ++ r)
    else
      let* ct := extract_text_from_url input_str in
      ret (fst ct, snd ct, input_str) in
  let '(text, page_title, url) := acquired in
  let* summary := summarize_content text debug in
  record_request;;
  ret (summary, url, page_title).

(* ------------------------------------------------------------------ *)
(** ** Test fixtures *)

(** An environment with no files, no proxy configuration, a download
    server answering 200 and pages of the given text. *)
Definition test_env (pc : proxy_file) (pdf_text : option string)
    (page_text : string) (post : string -> response) : env :=
  mkEnv (fun _ => Some false) (fun _ => 0) (fun p => p) (fun p => Some p) pc
        (fun _ => pdf_text) (fun _ => pdf_text)
        (fun _ => mkResponse 200 "%PDF" None) post
        (fun _ => Some (page_text, None)) 0.

Definition ok_summary (_ : string) : response :=
  mkResponse 200 "" (Some (JObj [("summary", JStr "gist")])).

(* ------------------------------------------------------------------ *)
(** ** Frame properties: what leaves the rate-limit log alone and never
    exits with status 0 *)

Definition benign {A} (m : M A) : Prop :=
  forall e s, rate_log (world_of (m e s)) = rate_log s /\
              forall h, res_of (m e s) = Halt h -> exit_status h <> 0.

Lemma benign_bind {A B} (m : M A) (k : A -> M B) :
  benign m -> (forall a, benign (k a)) -> benign (bind m k).
Proof.
  intros Hm Hk e s. unfold bind.
  destruct (Hm e s) as [Hl Hh].
  destruct (m e s) as [[a|h] s1 t1]; cbn in *.
  - destruct (Hk a e s1) as [Hl' Hh']. split; [congruence | exact Hh'].
  - split; [exact Hl |].
    intros h' Hq; injection Hq as <-; apply (Hh h); reflexivity.
Qed.

Lemma benign_ret {A} (a : A) : benign (ret a).
Proof. intros e s; split; [reflexivity | discriminate]. Qed.
Lemma benign_emit ev : benign (emit ev).
Proof. intros e s; split; [reflexivity | discriminate]. Qed.
Lemma benign_ask {A} (f : env -> A) : benign (ask f).
Proof. intros e s; split; [reflexivity | discriminate]. Qed.
Lemma benign_gets {A} (f : state -> A) : benign (gets f).
Proof. intros e s; split; [reflexivity | discriminate]. Qed.
Lemma benign_sleep d : benign (sleep d).
Proof. intros e s; split; [reflexivity | discriminate]. Qed.
Lemma benign_set_proxy_force f : benign (set_proxy_force f).
Proof. intros e s; split; [reflexivity | discriminate]. Qed.
Lemma benign_sys_exit {A} c msg : c <> 0 -> benign (@sys_exit A c msg).
Proof. intros Hc e s; split; [reflexivity | intros h Hh; inversion Hh; cbn; exact Hc]. Qed.
Lemma benign_raise {A} exn : benign (@raise A exn).
Proof. intros e s; split; [reflexivity | intros h Hh; inversion Hh; cbn; discriminate]. Qed.

Create HintDb benign.
Hint Resolve benign_ret benign_emit benign_ask benign_gets benign_sleep
  benign_set_proxy_force benign_raise : benign.
Hint Extern 1 (benign (sys_exit _ _)) => apply benign_sys_exit; discriminate : benign.
Hint Extern 1 (benign time_time) => apply benign_gets : benign.

Ltac benign_step :=
  match goal with
  | |- benign (bind _ _) => apply benign_bind; [| intro; cbv beta]
  | |- benign (let _ := _ in _) => cbv zeta
  | |- benign (if ?b then _ else _) => destruct b
  | |- benign (match ?x with _ => _ end) => destruct x
  end.
Ltac benign_tac := repeat (benign_step || solve [eauto with benign]).

Lemma benign_path_exists p : benign (path_exists p).
Proof. unfold path_exists; benign_tac. Qed.
Lemma benign_stat_size p : benign (stat_size p).
Proof. unfold stat_size; benign_tac. Qed.
Lemma benign_read_rate_log : benign read_rate_log.
Proof. unfold read_rate_log; benign_tac. Qed.
Hint Resolve benign_path_exists benign_stat_size benign_read_rate_log : benign.

Lemma benign_check_rate_limit : benign check_rate_limit.
Proof. unfold check_rate_limit; benign_tac. Qed.

Lemma benign_load_proxy_config : benign load_proxy_config.
Proof. unfold load_proxy_config; benign_tac. Qed.
Lemma benign_py_get c k d : benign (py_get c k d).
Proof. unfold py_get; benign_tac. Qed.
Lemma benign_random_choice j : benign (random_choice j).
Proof. unfold random_choice; benign_tac. Qed.
Hint Resolve benign_load_proxy_config benign_py_get benign_random_choice : benign.

Lemma benign_get_proxy_url : benign get_proxy_url.
Proof. unfold get_proxy_url; benign_tac. Qed.
Hint Resolve benign_get_proxy_url : benign.
Lemma benign_get_proxy : benign get_proxy.
Proof. unfold get_proxy; benign_tac. Qed.
Lemma benign_launch_browser : benign launch_browser.
Proof. unfold launch_browser; benign_tac. Qed.
Hint Resolve benign_get_proxy benign_launch_browser : benign.

Lemma benign_download_pdf_text u : benign (download_pdf_text u).
Proof. unfold download_pdf_text; benign_tac. Qed.
Hint Resolve benign_download_pdf_text : benign.
Lemma benign_extract_text_from_url u : benign (extract_text_from_url u).
Proof. unfold extract_text_from_url; benign_tac. Qed.
Lemma benign_extract_text_from_pdf p : benign (extract_text_from_pdf p).
Proof. unfold extract_text_from_pdf; benign_tac. Qed.
Lemma benign_summarize_content c d : benign (summarize_content c d).
Proof. unfold summarize_content; benign_tac. Qed.
Lemma benign_is_local_file i : benign (is_local_file i).
Proof. unfold is_local_file; benign_tac. Qed.
Hint Resolve benign_extract_text_from_url benign_extract_text_from_pdf
  benign_summarize_content benign_is_local_file benign_check_rate_limit : benign.
Definition spacing_events (now : Z) (ts : list Z) : list event :=
  match ts with
  | [] => []
  | _ :: _ =>
      if now - py_max ts <? MIN_INTERVAL_SECONDS then
        [EvStdout "Rate limit: waiting between requests...";
         EvSleep (MIN_INTERVAL_SECONDS - (now - py_max ts))]
      else []
  end.

Lemma rate_history_entries f ts :
  rate_history f = Some ts -> rate_entries f = ts.
Proof. unfold rate_entries. intros ->. reflexivity. Qed.

Lemma rate_history_none_entries f :
  rate_history f = None -> rate_entries f = [].
Proof. unfold rate_entries. intros ->. reflexivity. Qed.

Lemma read_rate_log_some e s ts :
  rate_history (rate_log s) = Some ts -> read_rate_log e s = mkOut (Ok ts) s [].
Proof.
  unfold read_rate_log, bind, gets, ret, raise, halt_with. cbn [res_of world_of trace_of].
  destruct (rate_log s) as [| | |ts'|j]; cbn; intros H; try discriminate.
  - inversion H; reflexivity.
  - inversion H; reflexivity.
  - inversion H; reflexivity.
  - rewrite H. reflexivity.
Qed.

Lemma read_rate_log_none e s :
  rate_history (rate_log s) = None ->
  exists x, read_rate_log e s = mkOut (Halt (Raise x)) s [].
Proof.
  unfold read_rate_log, bind, gets, ret, raise, halt_with. cbn [res_of world_of trace_of].
  destruct (rate_log s) as [| | |ts'|j]; cbn; intros H; try discriminate.
  - eexists; reflexivity.
  - rewrite H. eexists; reflexivity.
Qed.

Lemma check_rate_limit_run e s ts0 :
  rate_history (rate_log s) = Some ts0 ->
  let ts := prune (clock s) ts0 in
  check_rate_limit e s =
    let s1 := match ts with
              | [] => s
              | _ :: _ => if clock s - py_max ts <? MIN_INTERVAL_SECONDS
                          then mkState (clock s + (MIN_INTERVAL_SECONDS - (clock s - py_max ts)))
                                 (rate_log s) (proxy_force s)
                          else s
              end in
    if MAX_REQUESTS_PER_HOUR <=? Z.of_nat (length ts)
    then mkOut (Halt (SysExit 1 "")) s1
           (spacing_events (clock s) ts
            ++ [EvStderr "Rate limit reached (10 requests/hour). Try again later."])
    else mkOut (Ok tt) s1 (spacing_events (clock s) ts ++ []).
Proof.
  intros Hh. cbv zeta. unfold check_rate_limit, bind, time_time, gets.
  cbn [res_of world_of trace_of app].
  rewrite (read_rate_log_some e s ts0 Hh).
  cbn [res_of world_of trace_of app].
  destruct (prune (clock s) ts0) as [|t ts] eqn:E.
  - cbn. destruct (MAX_REQUESTS_PER_HOUR <=? 0); reflexivity.
  - unfold spacing_events. cbn [res_of world_of trace_of app].
    destruct (clock s - py_max (t :: ts) <? MIN_INTERVAL_SECONDS);
    destruct (MAX_REQUESTS_PER_HOUR <=? Z.of_nat (length (t :: ts))); reflexivity.
Qed.

(** A log [check_rate_limit] cannot read or prune ends the run with the
    exception, before any output and with the state untouched. *)
Lemma check_rate_limit_crash e s :
  rate_history (rate_log s) = None ->
  exists x, check_rate_limit e s = mkOut (Halt (Raise x)) s [].
Proof.
  intros Hh. destruct (read_rate_log_none e s Hh) as [x Hx].
  exists x. unfold check_rate_limit, bind, time_time, gets.
  cbn [res_of world_of trace_of app].
  rewrite Hx. reflexivity.
Qed.

(** [record_request] rewrites the log with the pruned history and [now]; an
    unreadable log makes it raise before it writes. *)
Lemma record_request_log e s :
  rate_log (world_of (record_request e s)) =
    match rate_history (rate_log s) with
    | Some ts => RFList (app (prune (clock s) ts) [clock s])
    | None => rate_log s
    end.
Proof.
  unfold record_request, bind, time_time, gets. cbn [res_of world_of trace_of].
  destruct (rate_history (rate_log s)) as [ts|] eqn:Hh.
  - rewrite (read_rate_log_some e s ts Hh). reflexivity.
  - destruct (read_rate_log_none e s Hh) as [x ->]. reflexivity.
Qed.

(* ------------------------------------------------------------------ *)
(** ** Rate limiting: properties *)






Lemma prune_spec (now : Z) (ts : list Z) (t : Z) :
  In t (prune now ts) <-> In t ts /\ now - t < window.
Proof.
  unfold prune. rewrite filter_In. rewrite Z.ltb_lt. tauto.
Qed.

(** C2 (as amended): the pruning of both [check_rate_limit] and
    [record_request] keeps exactly the entries with [now - ts < 3600] and
    removes those with [now - ts >= 3600]; an entry aged exactly 3600 s is
    removed.  [record_request] writes the pruned list followed by [now]
    (for a log it can read; otherwise it raises and writes nothing). *)
Theorem prune_keeps_exactly_younger_than_window :
  (forall now ts t, In t (prune now ts) <-> In t ts /\ now - t < 3600) /\
  (forall now ts t, In t ts -> 3600 <= now - t -> ~ In t (prune now ts)) /\
  (forall now, prune now [now - 3600] = []) /\
  (forall e s, rate_log (world_of (record_request e s)) =
               match rate_history (rate_log s) with
               | Some ts => RFList (app (prune (clock s) ts) [clock s])
               | None => rate_log s
               end).
Proof.
  split; [| split; [| split]].
  - intros now ts t. apply prune_spec.
  - intros now ts t _ Ht Hin. apply prune_spec in Hin. unfold window in Hin. lia.
  - intros now. unfold prune; cbn. replace (now - (now - 3600)) with 3600 by lia. reflexivity.
  - intros e s. apply record_request_log.
Qed.

(** C2 counterexample: an entry aged exactly 3600 s is dropped, by the
    pruning and by [record_request]. *)
Lemma prune_drops_entry_aged_3600 :
  prune 3600 [0] = [] /\
  rate_log (world_of (record_request (test_env PFMissing None "" ok_summary)
                        (mkState 3600 (RFList [0]) None))) = RFList [3600].
Proof. split; reflexivity. Qed.

(** C10: [check_rate_limit] leaves the rate-limit log as it was; so do the
    classification, extraction and summarization steps.  Only
    [record_request] writes it. *)
Theorem check_rate_limit_preserves_log :
  (forall e s, rate_log (world_of (check_rate_limit e s)) = rate_log s) /\
  (forall i e s, rate_log (world_of (is_local_file i e s)) = rate_log s) /\
  (forall p e s, rate_log (world_of (extract_text_from_pdf p e s)) = rate_log s) /\
  (forall u e s, rate_log (world_of (extract_text_from_url u e s)) = rate_log s) /\
  (forall c d e s, rate_log (world_of (summarize_content c d e s)) = rate_log s) /\
  (forall e s, rate_log (world_of (record_request e s)) =
               match rate_history (rate_log s) with
               | Some ts => RFList (app (prune (clock s) ts) [clock s])
               | None => rate_log s
               end).
Proof.
  repeat split; intros;
    first [ apply benign_check_rate_limit | apply benign_is_local_file
          | apply benign_extract_text_from_pdf | apply benign_extract_text_from_url
          | apply benign_summarize_content | apply record_request_log ].
Qed.

(* ------------------------------------------------------------------ *)
(** ** URL rewriting and dispatch: properties *)

(** Every character satisfies [f]. *)
Fixpoint str_forall (f : ascii -> bool) (s : string) : bool :=
  match s with
  | EmptyString => true
  | String c s' => f c && str_forall f s'
  end.

(** An arXiv identifier: no [?] (which starts the query) and no newline. *)
Definition id_char (c : ascii) : bool := negb (Ascii.eqb c "?"%char) && negb (Ascii.eqb c NL).

(** An optional query string: empty, or [?] and a newline-free rest. *)
Definition query_part (q : string) : Prop :=
  q = "" \/ exists r, q = String "?" r /\ str_forall (fun c => negb (Ascii.eqb c NL)) r = true.

Lemma string_app_assoc (a b c : string) : (a ++ b) ++ c = a ++ (b ++ c).
Proof. induction a; cbn; [reflexivity | now rewrite IHa]. Qed.

Lemma dotstar_dollar_clean r :
  str_forall (fun c => negb (Ascii.eqb c NL)) r = true -> dotstar_dollar r = true.
Proof.
  induction r as [|c r IH]; cbn; [reflexivity |].
  destruct (Ascii.eqb c NL); cbn; [discriminate | exact IH].
Qed.

Lemma query_part_then_end q : query_part q -> query_then_end q = true.
Proof.
  intros [-> | [r [-> Hr]]]; [reflexivity |].
  cbn. rewrite (dotstar_dollar_clean r Hr). reflexivity.
Qed.

Lemma query_then_end_id c rest :
  id_char c = true -> query_then_end (String c rest) = false.
Proof.
  unfold id_char. intros H. apply andb_prop in H as [H1 H2].
  apply negb_true_iff in H1, H2. cbn. rewrite H1. cbn.
  destruct rest; [exact H2 | reflexivity].
Qed.

Lemma lazy_group_id (id q acc : string) :
  id <> "" -> str_forall id_char id = true -> query_part q ->
  lazy_group acc (id ++ q) = Some (acc ++ id).
Proof.
  intros Hne Hid Hq. revert acc Hne Hid.
  induction id as [|c id' IH]; intros acc Hne Hid; [congruence |].
  cbn in Hid. apply andb_prop in Hid as [Hc Hid'].
  cbn [append lazy_group].
  assert (HNL : Ascii.eqb c NL = false).
  { unfold id_char in Hc. apply andb_prop in Hc as [_ H]. now apply negb_true_iff. }
  rewrite HNL.
  destruct id' as [|c' id''].
  - cbn [append]. rewrite (query_part_then_end q Hq). reflexivity.
  - cbn in Hid'. pose proof Hid' as Hid2. apply andb_prop in Hid2 as [Hc' _].
    cbn [append]. rewrite (query_then_end_id c' (id'' ++ q) Hc').
    change (String c' (id'' ++ q)) with (String c' id'' ++ q).
    rewrite (IH (acc ++ String c "")); [| discriminate | exact Hid'].
    rewrite string_app_assoc. reflexivity.
Qed.

Lemma rewrite_abs_url (scheme id q : string) :
  (scheme = "http" \/ scheme = "https") -> id <> "" ->
  str_forall id_char id = true -> query_part q ->
  rewrite_to_pdf_url (scheme ++ "://arxiv.org/abs/" ++ id ++ q) =
    Some ("https://arxiv.org/pdf/" ++ id).
Proof.
  intros Hs Hne Hid Hq. unfold rewrite_to_pdf_url, arxiv_match.
  assert (Hr : scheme_rest (scheme ++ "://arxiv.org/abs/" ++ id ++ q) =
               Some ("arxiv.org/abs/" ++ id ++ q)).
  { destruct Hs as [-> | ->]; reflexivity. }
  rewrite Hr. cbn [strip_prefix append Ascii.eqb Bool.eqb andb].
  rewrite (lazy_group_id id q "" Hne Hid Hq). reflexivity.
Qed.

(** Computations that neither change the state nor emit events. *)
Definition quiet {A} (m : M A) : Prop :=
  forall e s, world_of (m e s) = s /\ trace_of (m e s) = [].

Lemma quiet_bind {A B} (m : M A) (k : A -> M B) :
  quiet m -> (forall a, quiet (k a)) -> quiet (bind m k).
Proof.
  intros Hm Hk e s. unfold bind.
  destruct (Hm e s) as [Hw Ht].
  destruct (m e s) as [[a|h] s1 t1]; cbn in *; subst.
  - destruct (Hk a e s) as [Hw' Ht']. rewrite Hw', Ht'. split; reflexivity.
  - split; reflexivity.
Qed.

Lemma quiet_ret {A} (a : A) : quiet (ret a).
Proof. intros e s; split; reflexivity. Qed.
Lemma quiet_ask {A} (f : env -> A) : quiet (ask f).
Proof. intros e s; split; reflexivity. Qed.
Lemma quiet_gets {A} (f : state -> A) : quiet (gets f).
Proof. intros e s; split; reflexivity. Qed.
Lemma quiet_raise {A} exn : quiet (@raise A exn).
Proof. intros e s; split; reflexivity. Qed.

Create HintDb quiet.
Hint Resolve quiet_ret quiet_ask quiet_gets quiet_raise : quiet.

Ltac quiet_tac :=
  repeat (match goal with
          | |- quiet (bind _ _) => apply quiet_bind; [| intro; cbv beta]
          | |- quiet (if ?b then _ else _) => destruct b
          | |- quiet (match ?x with _ => _ end) => destruct x
          end || solve [eauto with quiet]).

Lemma quiet_get_proxy_url : quiet get_proxy_url.
Proof.
  unfold get_proxy_url, load_proxy_config, py_get, random_choice; quiet_tac.
Qed.
Hint Resolve quiet_get_proxy_url : quiet.
Lemma quiet_get_proxy : quiet get_proxy.
Proof. unfold get_proxy; quiet_tac. Qed.

Lemma extract_text_from_url_pdf_route (url pdf : string) (e : env) (s : state) :
  rewrite_to_pdf_url url = Some pdf ->
  let t := trace_of (extract_text_from_url url e s) in
  hd_error t = Some (EvStdout ("Downloading PDF: " ++ pdf)) /\
  (forall u, ~ In (EvGoto u) t) /\ (forall u, In (EvHttpGet u) t -> u = pdf).
Proof.
  intros Hr. cbv zeta. unfold extract_text_from_url. rewrite Hr.
  unfold download_pdf_text, bind, emit, ask, ret, sys_exit, raise, halt_with.
  cbn -[get_proxy].
  destruct (quiet_get_proxy e s) as [Hw Ht].
  destruct (get_proxy e s) as [[p|h] s1 t1]; cbn in Hw, Ht; subst.
  - destruct (resp_ok (http_get e pdf)); cbn;
      [destruct (pdf_bytes_text e (content (http_get e pdf))) |];
      cbn; (split; [reflexivity | split]);
      intros u Hu; cbn in Hu; intuition congruence.
  - cbn. split; [reflexivity | split]; intros u Hu;
      cbn in Hu; intuition congruence.
Qed.

Lemma extract_text_from_url_browser_route (url : string) (e : env) (s : state) :
  rewrite_to_pdf_url url = None ->
  let t := trace_of (extract_text_from_url url e s) in
  hd_error t = Some (EvStdout ("Extracting content from URL: " ++ url)) /\
  (forall u, ~ In (EvHttpGet u) t) /\ (forall u, In (EvGoto u) t -> u = url).
Proof.
  intros Hr. cbv zeta. unfold extract_text_from_url. rewrite Hr.
  unfold launch_browser, bind, emit, ask, ret, sys_exit, raise, halt_with.
  cbn -[get_proxy_url].
  destruct (quiet_get_proxy_url e s) as [Hw Ht].
  destruct (get_proxy_url e s) as [[p|h] s1 t1]; cbn in Hw, Ht; subst.
  - cbn. destruct (page_goto e url) as [[text title]|]; cbn;
      [destruct (py_not_str text || (py_len text <? 50)) |];
      cbn; (split; [reflexivity | split]);
      intros u Hu; cbn in Hu; intuition congruence.
  - cbn. split; [reflexivity | split]; intros u Hu;
      cbn in Hu; intuition congruence.
Qed.

(** C3: an arXiv abstract URL ([http] or [https], an identifier, an
    optional query string) is rewritten to [https://arxiv.org/pdf/<id>]
    and handed to the PDF downloader, which fetches that URL and never
    opens the browser; a URL that no pattern rewrites goes unchanged to
    the browser, and nothing is downloaded. *)
Theorem arxiv_abs_rewritten_and_routed :
  (forall scheme id q e s,
     (scheme = "http" \/ scheme = "https") -> id <> "" ->
     str_forall id_char id = true -> query_part q ->
     let url := scheme ++ "://arxiv.org/abs/" ++ id ++ q in
     let t := trace_of (extract_text_from_url url e s) in
     rewrite_to_pdf_url url = Some ("https://arxiv.org/pdf/" ++ id) /\
     hd_error t = Some (EvStdout ("Downloading PDF: https://arxiv.org/pdf/" ++ id)) /\
     (forall u, ~ In (EvGoto u) t) /\
     (forall u, In (EvHttpGet u) t -> u = "https://arxiv.org/pdf/" ++ id)) /\
  (forall url e s,
     rewrite_to_pdf_url url = None ->
     let t := trace_of (extract_text_from_url url e s) in
     hd_error t = Some (EvStdout ("Extracting content from URL: " ++ url)) /\
     (forall u, ~ In (EvHttpGet u) t) /\ (forall u, In (EvGoto u) t -> u = url)).
Proof.
  split.
  - intros scheme id q e s Hs Hne Hid Hq. cbv zeta.
    pose proof (rewrite_abs_url scheme id q Hs Hne Hid Hq) as Hr.
    split; [exact Hr |].
    exact (extract_text_from_url_pdf_route _ _ e s Hr).
  - intros url e s Hr. exact (extract_text_from_url_browser_route url e s Hr).
Qed.

Lemma arxiv_abs_rewritten_and_routed_witness :
  rewrite_to_pdf_url "https://arxiv.org/abs/2301.00001" = Some "https://arxiv.org/pdf/2301.00001" /\
  rewrite_to_pdf_url "https://example.com/post" = None /\
  hd_error (trace_of (extract_text_from_url "https://example.com/post"
                        (test_env PFMissing None "" ok_summary) (mkState 0 RFMissing None)))
    = Some (EvStdout ("Extracting content from URL: " ++ "https://example.com/post")).
Proof.
  destruct arxiv_abs_rewritten_and_routed as [HA HB].
  split; [| split].
  - apply (HA "https" "2301.00001" "" (test_env PFMissing None "" ok_summary)
             (mkState 0 RFMissing None)).
    + right; reflexivity.
    + discriminate.
    + reflexivity.
    + left; reflexivity.
  - reflexivity.
  - apply (HB "https://example.com/post"). reflexivity.
Defined.

(* ------------------------------------------------------------------ *)
(** ** Input classification and local PDF extraction: properties *)

(** [input_str.startswith(("http://", "https://"))] *)
Definition url_scheme_prefixed (i : string) : bool :=
  startswith "http://" i || startswith "https://" i.

(** C4 (as amended): [_is_local_file] answers true exactly when the input
    has no [http://] or [https://] prefix, its [~] expands and the expanded
    path exists; it answers false for a prefixed input, without any
    file-system probe, and for an expanded path that does not exist.
    Otherwise it raises: [RuntimeError] when [expanduser] cannot expand the
    input (an unknown [~user]), and the [OSError] of [exists()] (e.g.
    [PermissionError]) when the probe fails. *)
Theorem is_local_file_classification (i : string) (e : env) (s : state) :
  let o := is_local_file i e s in
  (res_of o = Ok true <->
     url_scheme_prefixed i = false /\
     exists p, path_expanduser e i = Some p /\ fs_exists e p = Some true) /\
  (res_of o = Ok false <->
     url_scheme_prefixed i = true \/
     exists p, path_expanduser e i = Some p /\ fs_exists e p = Some false) /\
  (forall h, res_of o = Halt h ->
     url_scheme_prefixed i = false /\
     ((path_expanduser e i = None /\ h = Raise "RuntimeError") \/
      exists p, path_expanduser e i = Some p /\ fs_exists e p = None /\
                h = Raise "OSError")) /\
  trace_of o = (if url_scheme_prefixed i then []
                else match path_expanduser e i with
                     | Some p => [EvExists p]
                     | None => []
                     end) /\
  world_of o = s.
Proof.
  cbv zeta. unfold is_local_file, url_scheme_prefixed, path_exists,
    bind, emit, ask, ret, raise, halt_with.
  destruct (startswith "http://" i || startswith "https://" i); cbn.
  - split; [split; [discriminate | intros [H _]; discriminate] |].
    split; [split; [left; reflexivity | reflexivity] |].
    split; [discriminate | split; reflexivity].
  - destruct (path_expanduser e i) as [p|]; cbn.
    + destruct (fs_exists e p) as [[|]|] eqn:Hfe; cbn.
      * split; [split; [intros _; split; [reflexivity | exists p; split; [reflexivity | exact Hfe]] | reflexivity] |].
        split; [split; [discriminate | intros [H|[p' [Hp Hf]]]; [discriminate | congruence]] |].
        split; [discriminate | split; reflexivity].
      * split; [split; [discriminate | intros [_ [p' [Hp Hf]]]; congruence] |].
        split; [split; [intros _; right; exists p; split; [reflexivity | exact Hfe] | reflexivity] |].
        split; [discriminate | split; reflexivity].
      * split; [split; [discriminate | intros [_ [p' [Hp Hf]]]; congruence] |].
        split; [split; [discriminate | intros [H|[p' [Hp Hf]]]; [discriminate | congruence]] |].
        split; [| split; reflexivity].
        intros h Hh; injection Hh as <-. split; [reflexivity |].
        right; exists p; split; [reflexivity | split; [exact Hfe | reflexivity]].
    + split; [split; [discriminate | intros [_ [p' [Hp Hf]]]; discriminate] |].
      split; [split; [discriminate | intros [H|[p' [Hp Hf]]]; discriminate] |].
      split; [| split; reflexivity].
      intros h Hh; injection Hh as <-. split; [reflexivity |].
      left; split; reflexivity.
Qed.

(** An environment whose [expanduser] knows no [~user], and one whose
    [exists()] is refused permission. *)
Definition no_user_env (e : env) : env :=
  mkEnv (fs_exists e) (fs_size e) (path_resolve e) (fun _ => None)
        (proxy_cfg e) (pdf_path_text e) (pdf_bytes_text e) (http_get e)
        (http_post e) (page_goto e) (rand_draw e).

Definition no_access_env (e : env) : env :=
  mkEnv (fun _ => None) (fs_size e) (path_resolve e) (fun p => Some p)
        (proxy_cfg e) (pdf_path_text e) (pdf_bytes_text e) (http_get e)
        (http_post e) (page_goto e) (rand_draw e).

(** C4 counterexample: [_is_local_file("~nosuchuser/x")] is neither true nor
    false: [expanduser] raises [RuntimeError]; and an input under a
    directory without search permission makes [exists()] raise. *)
Lemma is_local_file_unknown_user_raises :
  let e := test_env PFMissing None "" ok_summary in
  res_of (is_local_file "~nosuchuser/x" (no_user_env e) (mkState 0 RFMissing None)) =
    Halt (Raise "RuntimeError") /\
  res_of (is_local_file "/root/secret/x.pdf" (no_access_env e) (mkState 0 RFMissing None)) =
    Halt (Raise "OSError").
Proof. split; reflexivity. Qed.






(* ------------------------------------------------------------------ *)
(** ** Summarization failures and the pipeline: properties *)

















(** A successful run does append a time stamp. *)
Example main_pipeline_success_records :
  rate_log (world_of (main_pipeline (Some "https://example.com/post") false None
     (test_env PFMissing None (String.concat "" (repeat "word " 20)) ok_summary)
     (mkState 5000 (RFList [10; 4000]) None))) = RFList [4000; 5000].
Proof. vm_compute. reflexivity. Qed.

(* ------------------------------------------------------------------ *)
(** ** Proxy configuration and low-content warnings: divergences *)

Definition pdf_env (pdf_text : option string) : env :=
  mkEnv (fun _ => Some true) (fun _ => 1000) (fun p => p) (fun p => Some p) PFMissing
        (fun _ => pdf_text) (fun _ => pdf_text)
        (fun _ => mkResponse 200 "%PDF" None) ok_summary
        (fun _ => Some ("", None)) 0.

(** C6: a configuration file holding valid JSON that is not an object
    (here [[]]) passes [_load_proxy_config] unchanged, and the following
    [config.get] raises [AttributeError]; a file that is not valid text
    raises [UnicodeDecodeError].  For a web URL the whole run then stops
    on the exception. *)
Theorem proxy_config_non_object_raises :
  let s := mkState 0 RFMissing None in
  res_of (load_proxy_config (test_env (PFText (Some (JArr []))) None "" ok_summary) s)
    = Ok (JArr []) /\
  res_of (get_proxy_url (test_env (PFText (Some (JArr []))) None "" ok_summary) s)
    = Halt (Raise "AttributeError") /\
  res_of (get_proxy_url (test_env PFBadText None "" ok_summary) s)
    = Halt (Raise "UnicodeDecodeError") /\
  res_of (main_pipeline (Some "https://example.com/post") false None
            (test_env (PFText (Some (JArr []))) None "" ok_summary) s)
    = Halt (Raise "AttributeError") /\
  res_of (get_proxy_url (test_env PFMissing None "" ok_summary) s) = Ok None.
Proof. vm_compute. repeat split. Qed.

(** C9: on the arXiv route the downloaded PDF's text goes through
    [_download_pdf_text], which has no low-content check: an empty text is
    returned with no warning, while the browser route and the local PDF
    route both warn on the same text. *)
Theorem download_pdf_text_emits_no_warning :
  let s := mkState 0 RFMissing None in
  let o := extract_text_from_url "https://arxiv.org/abs/1234.5678"
             (test_env PFMissing (Some "") "" ok_summary) s in
  res_of o = Ok ("", None) /\
  (forall m, ~ In (EvStderr m) (trace_of o)) /\
  In (EvStderr "Warning: extracted very little text from the page.")
     (trace_of (extract_text_from_url "https://example.com/post"
                  (test_env PFMissing (Some "") "" ok_summary) s)) /\
  In (EvStderr "Warning: extracted very little text from the PDF.")
     (trace_of (extract_text_from_pdf "paper.pdf" (pdf_env (Some "")) s)).
Proof.
  vm_compute. split; [reflexivity | split].
  - intros m Hm. intuition congruence.
  - split; [right; right; left; reflexivity | do 4 right; left; reflexivity].
Qed.

(* ------------------------------------------------------------------ *)
(** ** Helpers: slugs and Markdown *)

Fixpoint drop_while (p : ascii -> bool) (l : list ascii) : list ascii :=
  match l with
  | [] => []
  | c :: l' => if p c then drop_while p l' else l
  end.

(** [str.lower()] on ASCII characters. *)
Definition py_lower_char (c : ascii) : ascii :=
  let n := nat_of_ascii c in
  if ((65 <=? n) && (n <=? 90))%nat then ascii_of_nat (n + 32) else c.

Definition is_dash (c : ascii) : bool := Ascii.eqb c "-"%char.

(** Membership in the class [[a-z0-9]]. *)
Definition slug_char (c : ascii) : bool :=
  let n := nat_of_ascii c in ((97 <=? n) && (n <=? 122))%nat || ((48 <=? n) && (n <=? 57))%nat.

(** [re.sub(r"[^a-z0-9]+", "-", s)]: each maximal run of characters
    outside [[a-z0-9]] becomes one dash; [in_run] says that the previous
    character already belonged to such a run. *)
Fixpoint sub_runs (in_run : bool) (l : list ascii) : list ascii :=
  match l with
  | [] => []
  | c :: l' =>
      if slug_char c then c :: sub_runs false l'
      else if in_run then sub_runs true l'
      else "-"%char :: sub_runs true l'
  end.

(** [s.strip("-")] *)
Definition strip_dashes (l : list ascii) : list ascii :=
  rev (drop_while is_dash (rev (drop_while is_dash l))).

(** [slugify(text)] *)
Definition slugify (text : string) : string :=
  let slug := map py_lower_char (list_ascii_of_string text) in
  let slug := sub_runs false slug in
  let slug := strip_dashes slug in
  match slug with
  | [] => "summary"
  | _ :: _ => string_of_list_ascii (firstn 80 slug)
  end.

Example slugify_title : slugify "Hello, World!  2024" = "hello-world-2024".
Proof. reflexivity. Qed.
Example slugify_symbols : slugify "***" = "summary".
Proof. reflexivity. Qed.




(* ------------------------------------------------------------------ *)
(** ** Slugs: properties *)

Definition slug_or_dash (c : ascii) : bool := slug_char c || is_dash c.

Definition starts_dash (l : list ascii) : bool :=
  match l with [] => false | c :: _ => is_dash c end.

Definition ends_dash (l : list ascii) : bool :=
  match rev l with [] => false | c :: _ => is_dash c end.

(** No two consecutive dashes. *)
Fixpoint no_double_dash (l : list ascii) : bool :=
  match l with
  | c :: ((d :: _) as l') => negb (is_dash c && is_dash d) && no_double_dash l'
  | _ => true
  end.

Lemma no_double_dash_cons2 c d l :
  no_double_dash (c :: d :: l) = negb (is_dash c && is_dash d) && no_double_dash (d :: l).
Proof. reflexivity. Qed.

Lemma slug_char_not_dash c : slug_char c = true -> is_dash c = false.
Proof.
  intros H. destruct (is_dash c) eqn:E; [| reflexivity].
  unfold is_dash in E. apply Ascii.eqb_eq in E. subst. discriminate.
Qed.

Lemma sub_runs_chars b l : forallb slug_or_dash (sub_runs b l) = true.
Proof.
  revert b. induction l as [|c l IH]; intros b; cbn; [reflexivity |].
  destruct (slug_char c) eqn:Hc; cbn.
  - unfold slug_or_dash at 1. rewrite Hc. apply IH.
  - destruct b; [apply IH | cbn; apply IH].
Qed.

Lemma sub_runs_no_double b l :
  no_double_dash (sub_runs b l) = true /\ starts_dash (sub_runs true l) = false.
Proof.
  revert b. induction l as [|c l IH]; intros b; cbn; [split; reflexivity |].
  destruct (IH false) as [H0 _]. destruct (IH true) as [H1 Hs].
  destruct (slug_char c) eqn:Hc.
  - pose proof (slug_char_not_dash c Hc) as Hd. cbn. split; [| exact Hd].
    destruct (sub_runs false l); [reflexivity |]. rewrite Hd. exact H0.
  - split; [| exact Hs]. destruct b; [exact H1 |].
    destruct (sub_runs true l) eqn:E; [reflexivity |].
    cbn in Hs. rewrite no_double_dash_cons2, Hs, H1. reflexivity.
Qed.

Lemma no_double_dash_app (l1 l2 : list ascii) :
  no_double_dash (app l1 l2) = true -> no_double_dash l1 = true /\ no_double_dash l2 = true.
Proof.
  induction l1 as [|a l1 IH]; cbn; intros H; [split; [reflexivity | exact H] |].
  destruct l1 as [|b l1']; cbn in *.
  - split; [reflexivity |]. destruct l2 as [|d l2]; [reflexivity |].
    apply andb_prop in H as [_ H]. exact H.
  - apply andb_prop in H as [Hab H]. destruct (IH H) as [H1 H2].
    split; [rewrite Hab; exact H1 | exact H2].
Qed.

Lemma drop_while_suffix p (l : list ascii) : exists xs, l = app xs (drop_while p l).
Proof.
  induction l as [|a l [xs IH]]; cbn; [exists []; reflexivity |].
  destruct (p a).
  - exists (a :: xs). cbn. rewrite <- IH. reflexivity.
  - exists []. reflexivity.
Qed.

Lemma drop_while_head p (l : list ascii) c r : drop_while p l = c :: r -> p c = false.
Proof.
  induction l as [|a l IH]; cbn; intros H; [discriminate |].
  destruct (p a) eqn:Ha; [exact (IH H) |]. injection H as <- _. exact Ha.
Qed.

(** [s.strip("-")] is a slice of [s]. *)
Lemma strip_dashes_slice (l : list ascii) :
  exists pre suf, l = app pre (app (strip_dashes l) suf).
Proof.
  unfold strip_dashes.
  destruct (drop_while_suffix is_dash l) as [pre Hpre].
  set (L := drop_while is_dash l) in *.
  destruct (drop_while_suffix is_dash (rev L)) as [xs Hxs].
  exists pre, (rev xs). rewrite Hpre at 1. f_equal.
  rewrite <- rev_app_distr, <- Hxs, rev_involutive. reflexivity.
Qed.

Lemma strip_dashes_head (l : list ascii) : starts_dash (strip_dashes l) = false.
Proof.
  unfold strip_dashes.
  set (L := drop_while is_dash l).
  destruct (rev (drop_while is_dash (rev L))) as [|c r] eqn:E; [reflexivity |]. cbn.
  destruct (drop_while_suffix is_dash (rev L)) as [xs Hxs].
  assert (HL : L = app (rev (drop_while is_dash (rev L))) (rev xs)).
  { rewrite <- rev_app_distr, <- Hxs, rev_involutive. reflexivity. }
  rewrite E in HL. exact (drop_while_head is_dash l c (app r (rev xs)) HL).
Qed.

Lemma forallb_slice {A} (f : A -> bool) pre mid suf :
  forallb f (app pre (app mid suf)) = true -> forallb f mid = true.
Proof. rewrite !forallb_app. intros H. apply andb_prop in H as [_ H]. apply andb_prop in H. tauto. Qed.

Lemma no_double_dash_slice pre mid suf :
  no_double_dash (app pre (app mid suf)) = true -> no_double_dash mid = true.
Proof.
  intros H. apply no_double_dash_app in H as [_ H]. apply no_double_dash_app in H. tauto.
Qed.

(** The shape of every slug: characters of [[a-z0-9-]], not empty, at most
    80 long, no leading dash and no two dashes in a row. *)
Definition slug_shape (r : list ascii) : Prop :=
  forallb slug_or_dash r = true /\ r <> [] /\ (length r <= 80)%nat /\
  starts_dash r = false /\ no_double_dash r = true.

Lemma slugify_shape (text : string) : slug_shape (list_ascii_of_string (slugify text)).
Proof.
  unfold slugify.
  set (S := sub_runs false (map py_lower_char (list_ascii_of_string text))).
  pose proof (sub_runs_chars false (map py_lower_char (list_ascii_of_string text))) as Hc.
  destruct (sub_runs_no_double false (map py_lower_char (list_ascii_of_string text))) as [Hn _].
  fold S in Hc, Hn.
  destruct (strip_dashes_slice S) as [pre [suf Hsl]].
  pose proof (strip_dashes_head S) as Hh.
  destruct (strip_dashes S) as [|c r] eqn:E.
  - cbn. repeat split; try reflexivity; [discriminate | cbn; lia].
  - rewrite list_ascii_of_string_of_list_ascii.
    rewrite Hsl in Hc, Hn.
    pose proof (forallb_slice _ _ _ _ Hc) as Hc'. pose proof (no_double_dash_slice _ _ _ Hn) as Hn'.
    pose proof (firstn_skipn 80 (c :: r)) as Hfs.
    repeat split.
    + rewrite <- Hfs in Hc'. rewrite forallb_app in Hc'. apply andb_prop in Hc'. tauto.
    + cbn. discriminate.
    + apply firstn_le_length.
    + exact Hh.
    + rewrite <- Hfs in Hn'. apply no_double_dash_app in Hn'. tauto.
Qed.

Lemma py_lower_char_slug c : slug_or_dash c = true -> py_lower_char c = c.
Proof.
  unfold slug_or_dash, slug_char, is_dash, py_lower_char. intros H.
  destruct ((65 <=? nat_of_ascii c) && (nat_of_ascii c <=? 90))%nat eqn:E; [| reflexivity].
  exfalso. apply andb_prop in E as [E1 E2]. apply Nat.leb_le in E1, E2.
  apply orb_prop in H as [H | H].
  - apply orb_prop in H as [H | H]; apply andb_prop in H as [H1 H2];
      apply Nat.leb_le in H1, H2; lia.
  - apply Ascii.eqb_eq in H. subst. cbn in E1. lia.
Qed.

Lemma sub_runs_id (l : list ascii) :
  forall b, forallb slug_or_dash l = true -> no_double_dash l = true ->
  (b = true -> starts_dash l = false) -> sub_runs b l = l.
Proof.
  induction l as [|c l IH]; intros b Hc Hn Hs; [reflexivity |].
  cbn in Hc. apply andb_prop in Hc as [Hc Hl].
  assert (Hnl : no_double_dash l = true).
  { destruct l as [|d l']; [reflexivity |]. rewrite no_double_dash_cons2 in Hn.
    apply andb_prop in Hn. tauto. }
  cbn. destruct (slug_char c) eqn:Hsc.
  - rewrite (IH false Hl Hnl ltac:(discriminate)). reflexivity.
  - unfold slug_or_dash in Hc. rewrite Hsc in Hc. cbn in Hc.
    destruct b.
    + specialize (Hs eq_refl). cbn in Hs. congruence.
    + apply Ascii.eqb_eq in Hc. subst c.
      rewrite (IH true Hl Hnl); [reflexivity |].
      intros _. destruct l as [|d l']; [reflexivity |].
      rewrite no_double_dash_cons2 in Hn. cbn. apply andb_prop in Hn as [Hn _].
      destruct (is_dash d); [discriminate | reflexivity].
Qed.

Lemma slugify_of_shape (r : list ascii) :
  slug_shape r ->
  (slugify (string_of_list_ascii r) = string_of_list_ascii r <-> ends_dash r = false).
Proof.
  intros (Hc & Hne & Hlen & Hs & Hn).
  unfold slugify. rewrite list_ascii_of_string_of_list_ascii.
  rewrite (map_ext_in py_lower_char (fun c => c)), map_id
    by (intros c Hin; apply py_lower_char_slug; rewrite forallb_forall in Hc; auto).
  rewrite (sub_runs_id r false Hc Hn ltac:(discriminate)).
  unfold strip_dashes.
  assert (Hd : drop_while is_dash r = r).
  { destruct r as [|c r']; [reflexivity |]. cbn in Hs |- *. rewrite Hs. reflexivity. }
  rewrite Hd. unfold ends_dash.
  destruct (rev r) as [|c x] eqn:Er.
  { apply (f_equal (@rev ascii)) in Er. rewrite rev_involutive in Er. cbn in Er. congruence. }
  cbn [drop_while]. destruct (is_dash c) eqn:Ec.
  - split; [| discriminate]. intros Heq. exfalso.
    assert (Hlt : (length (rev (drop_while is_dash x)) < length r)%nat).
    { rewrite length_rev. destruct (drop_while_suffix is_dash x) as [ys Hys].
      assert (length r = S (length x)) by (rewrite <- length_rev, Er; reflexivity).
      rewrite Hys in H. rewrite length_app in H. lia. }
    destruct (rev (drop_while is_dash x)) as [|d y] eqn:Ey.
    + apply (f_equal list_ascii_of_string) in Heq.
      rewrite list_ascii_of_string_of_list_ascii in Heq. subst r. cbn in Er.
      injection Er as <- _. cbn in Ec. discriminate.
    + apply (f_equal list_ascii_of_string) in Heq.
      rewrite !list_ascii_of_string_of_list_ascii in Heq.
      assert (Hf : (length r <= length (d :: y))%nat)
        by (rewrite <- Heq, length_firstn; lia).
      lia.
  - split; [reflexivity | intros _].
    rewrite <- Er, rev_involutive.
    destruct r as [|a r']; [congruence |].
    rewrite firstn_all2 by exact Hlen. reflexivity.
Qed.

Lemma strip_dashes_tail (l : list ascii) : ends_dash (strip_dashes l) = false.
Proof.
  unfold ends_dash, strip_dashes. rewrite rev_involutive.
  destruct (drop_while is_dash (rev (drop_while is_dash l))) as [|c r] eqn:E;
    [reflexivity |].
  exact (drop_while_head is_dash _ c r E).
Qed.

Lemma length_string_of_list_ascii (l : list ascii) :
  String.length (string_of_list_ascii l) = length l.
Proof. induction l as [|c l IH]; cbn; [reflexivity | now rewrite IH]. Qed.

(** A trailing dash is left only by the 80-character cut. *)
Lemma slugify_trailing_dash_cut (text : string) :
  ends_dash (list_ascii_of_string (slugify text)) = true ->
  String.length (slugify text) = 80%nat.
Proof.
  unfold slugify.
  set (S := sub_runs false (map py_lower_char (list_ascii_of_string text))).
  pose proof (strip_dashes_tail S) as Ht.
  destruct (strip_dashes S) as [|c r] eqn:E; [discriminate |].
  rewrite list_ascii_of_string_of_list_ascii, length_string_of_list_ascii.
  intros Hd.
  destruct (Nat.le_gt_cases (length (c :: r)) 80) as [Hle | Hgt].
  - rewrite firstn_all2 in Hd by exact Hle. congruence.
  - rewrite length_firstn. lia.
Qed.

(** [slugify] is idempotent exactly when its result does not end with a
    dash; only the 80-character cut can leave a trailing dash, so a result
    ending with a dash is exactly 80 characters long. *)
Theorem slugify_idempotent_iff (text : string) :
  (slugify (slugify text) = slugify text <->
   ends_dash (list_ascii_of_string (slugify text)) = false) /\
  (ends_dash (list_ascii_of_string (slugify text)) = true ->
   String.length (slugify text) = 80%nat).
Proof.
  split; [| apply slugify_trailing_dash_cut].
  pose proof (slugify_of_shape _ (slugify_shape text)) as H.
  rewrite string_of_list_ascii_of_string in H. exact H.
Qed.

(** Every result of [slugify] is a non-empty string of at most 80
    characters from [[a-z0-9-]], with no leading dash and no two dashes in
    a row (an input without letters or digits gives [summary]). *)
Theorem slugify_result_shape (text : string) :
  let r := list_ascii_of_string (slugify text) in
  forallb slug_or_dash r = true /\ r <> [] /\ (length r <= 80)%nat /\
  starts_dash r = false /\ no_double_dash r = true.
Proof. exact (slugify_shape text). Qed.

Example slugify_cut_after_dash :
  let t := String.concat "" (repeat "a" 79) ++ " bcd" in
  ends_dash (list_ascii_of_string (slugify t)) = true /\
  slugify (slugify t) <> slugify t.
Proof. vm_compute. split; [reflexivity | discriminate]. Qed.

(* ------------------------------------------------------------------ *)
(** ** Markdown rendering: properties *)

Definition no_nl (s : string) : bool := str_forall (fun c => negb (Ascii.eqb c NL)) s.








(* ------------------------------------------------------------------ *)
(** ** Proxy selection: properties *)

Definition with_draw (e : env) (n : nat) : env :=
  mkEnv (fs_exists e) (fs_size e) (path_resolve e) (path_expanduser e) (proxy_cfg e)
        (pdf_path_text e) (pdf_bytes_text e) (http_get e) (http_post e) (page_goto e) n.

(** With [--no-proxy], [_get_proxy_url] returns [None] for every readable
    configuration file, whatever JSON it holds, without raising. *)
Theorem get_proxy_url_forced_off (e : env) (s : state) :
  proxy_force s = Some false -> proxy_cfg e <> PFBadText ->
  res_of (get_proxy_url e s) = Ok None.
Proof.
  intros Hf Hc. unfold get_proxy_url, load_proxy_config, bind, ask, gets, ret, raise, halt_with.
  cbn. destruct (proxy_cfg e) as [| | | [j|]]; try congruence; cbn; rewrite Hf; reflexivity.
Qed.

Lemma get_proxy_url_forced_off_witness :
  res_of (get_proxy_url (test_env (PFText (Some (JArr []))) None "" ok_summary)
            (mkState 0 RFMissing (Some false))) = Ok None.
Proof. apply get_proxy_url_forced_off; [reflexivity | discriminate]. Defined.

(** A missing or unreadable configuration file, or one that is not valid
    JSON, yields no proxy under every override, [--proxy] included. *)
Theorem get_proxy_url_no_config (e : env) (s : state) :
  (proxy_cfg e = PFMissing \/ proxy_cfg e = PFOSError \/ proxy_cfg e = PFText None) ->
  res_of (get_proxy_url e s) = Ok None.
Proof.
  intros Hc. unfold get_proxy_url, load_proxy_config, bind, ask, gets, ret.
  cbn. destruct Hc as [-> | [-> | ->]]; cbn;
    destruct (proxy_force s) as [[|]|]; reflexivity.
Qed.

Lemma get_proxy_url_no_config_witness :
  res_of (get_proxy_url (test_env PFOSError None "" ok_summary)
            (mkState 0 RFMissing (Some true))) = Ok None.
Proof. apply get_proxy_url_no_config. right; left; reflexivity. Defined.

Lemma nth_mod_index {A} (l : list A) (d p : A) :
  In p l -> exists n, nth (n mod length l) l d = p.
Proof.
  intros Hin. destruct (In_nth l p d Hin) as [n [Hn Hp]].
  exists n. rewrite Nat.mod_small by exact Hn. exact Hp.
Qed.

(** With proxying enabled (by [--proxy], or by a truthy [enabled] when no
    flag is given) and a non-empty [proxies] list, [_get_proxy_url]
    returns an element of the list, and every element is returned for
    some draw of the random generator. *)
Theorem get_proxy_url_selects_from_list (e : env) (s : state) kv l :
  proxy_cfg e = PFText (Some (JObj kv)) ->
  dict_get kv "proxies" (JArr []) = JArr l -> l <> [] ->
  (proxy_force s = Some true \/
   (proxy_force s = None /\ truthy (dict_get kv "enabled" (JBool false)) = true)) ->
  (exists p, res_of (get_proxy_url e s) = Ok (Some p) /\ In p l) /\
  (forall p, In p l -> exists n, res_of (get_proxy_url (with_draw e n) s) = Ok (Some p)).
Proof.
  intros Hc Hp Hne Hen.
  assert (Hrun : forall e', proxy_cfg e' = PFText (Some (JObj kv)) ->
            res_of (get_proxy_url e' s) = Ok (Some (nth (rand_draw e' mod length l) l JNull))).
  { intros e' Hc'.
    unfold get_proxy_url, load_proxy_config, py_get, random_choice, bind, ask, gets, ret.
    cbn. rewrite Hc'. cbn.
    destruct Hen as [Hf | [Hf Ht]]; rewrite Hf; cbn; [| rewrite Ht]; cbn;
      rewrite Hp; destruct l; [congruence | reflexivity | congruence | reflexivity]. }
  split.
  - exists (nth (rand_draw e mod length l) l JNull). split; [exact (Hrun e Hc) |].
    apply nth_In. apply Nat.mod_upper_bound. destruct l; [congruence | discriminate].
  - intros p Hin. destruct (nth_mod_index l JNull p Hin) as [n Hn].
    exists n. rewrite (Hrun (with_draw e n) Hc). rewrite <- Hn. reflexivity.
Qed.

Definition proxy_env : env :=
  test_env (PFText (Some (JObj [("enabled", JBool true);
                                ("proxies", JArr [JStr "http://p1:8080"; JStr "http://p2:8080"])])))
           None "" ok_summary.

Lemma get_proxy_url_selects_from_list_witness :
  exists n, res_of (get_proxy_url (with_draw proxy_env n) (mkState 0 RFMissing None))
            = Ok (Some (JStr "http://p2:8080")).
Proof.
  destruct (get_proxy_url_selects_from_list proxy_env (mkState 0 RFMissing None)
              [("enabled", JBool true);
               ("proxies", JArr [JStr "http://p1:8080"; JStr "http://p2:8080"])]
              [JStr "http://p1:8080"; JStr "http://p2:8080"]
              eq_refl eq_refl ltac:(discriminate) (or_intror (conj eq_refl eq_refl)))
    as [_ H].
  apply H. right; left; reflexivity.
Defined.

(* ------------------------------------------------------------------ *)
(** ** Rate limiting across a run *)

(** Computations that move neither the clock nor the rate-limit log. *)
Definition clock_kept {A} (m : M A) : Prop :=
  forall e s, clock (world_of (m e s)) = clock s /\ rate_log (world_of (m e s)) = rate_log s.

Lemma clock_kept_bind {A B} (m : M A) (k : A -> M B) :
  clock_kept m -> (forall a, clock_kept (k a)) -> clock_kept (bind m k).
Proof.
  intros Hm Hk e s. unfold bind.
  destruct (Hm e s) as [Hc Hl].
  destruct (m e s) as [[a|h] s1 t1]; cbn in *.
  - destruct (Hk a e s1) as [Hc' Hl']. split; congruence.
  - split; assumption.
Qed.

Lemma clock_kept_of_quiet {A} (m : M A) : quiet m -> clock_kept m.
Proof. intros Hq e s. destruct (Hq e s) as [-> _]. split; reflexivity. Qed.

Lemma clock_kept_ret {A} (a : A) : clock_kept (ret a).
Proof. intros e s; split; reflexivity. Qed.
Lemma clock_kept_emit ev : clock_kept (emit ev).
Proof. intros e s; split; reflexivity. Qed.
Lemma clock_kept_ask {A} (f : env -> A) : clock_kept (ask f).
Proof. intros e s; split; reflexivity. Qed.
Lemma clock_kept_halt {A} h : clock_kept (@halt_with A h).
Proof. intros e s; split; reflexivity. Qed.
Lemma clock_kept_sys_exit {A} c msg : clock_kept (@sys_exit A c msg).
Proof. apply clock_kept_halt. Qed.
Lemma clock_kept_raise {A} exn : clock_kept (@raise A exn).
Proof. apply clock_kept_halt. Qed.
Lemma clock_kept_get_proxy_url : clock_kept get_proxy_url.
Proof. apply clock_kept_of_quiet, quiet_get_proxy_url. Qed.
Lemma clock_kept_get_proxy : clock_kept get_proxy.
Proof. apply clock_kept_of_quiet, quiet_get_proxy. Qed.

Create HintDb clock_kept.
Hint Resolve clock_kept_ret clock_kept_emit clock_kept_ask clock_kept_sys_exit
  clock_kept_raise clock_kept_get_proxy_url clock_kept_get_proxy : clock_kept.

Ltac clock_kept_tac :=
  repeat (match goal with
          | |- clock_kept (bind _ _) => apply clock_kept_bind; [| intro; cbv beta]
          | |- clock_kept (let _ := _ in _) => cbv zeta
          | |- clock_kept (if ?b then _ else _) => destruct b
          | |- clock_kept (match ?x with _ => _ end) => destruct x
          end || solve [eauto with clock_kept]).

Lemma clock_kept_path_exists p : clock_kept (path_exists p).
Proof. unfold path_exists; clock_kept_tac. Qed.
Lemma clock_kept_stat_size p : clock_kept (stat_size p).
Proof. unfold stat_size; clock_kept_tac. Qed.
Hint Resolve clock_kept_path_exists clock_kept_stat_size : clock_kept.

Lemma clock_kept_is_local_file i : clock_kept (is_local_file i).
Proof. unfold is_local_file; clock_kept_tac. Qed.
Lemma clock_kept_extract_text_from_pdf p : clock_kept (extract_text_from_pdf p).
Proof. unfold extract_text_from_pdf; clock_kept_tac. Qed.
Lemma clock_kept_extract_text_from_url u : clock_kept (extract_text_from_url u).
Proof. unfold extract_text_from_url, download_pdf_text, launch_browser; clock_kept_tac. Qed.
Lemma clock_kept_summarize_content c d : clock_kept (summarize_content c d).
Proof. unfold summarize_content, py_get; clock_kept_tac. Qed.

Lemma bind_ok {A B} (m : M A) (k : A -> M B) e s b :
  res_of (bind m k e s) = Ok b ->
  exists a, res_of (m e s) = Ok a /\ res_of (k a e (world_of (m e s))) = Ok b /\
            world_of (bind m k e s) = world_of (k a e (world_of (m e s))).
Proof.
  unfold bind. destruct (m e s) as [[a|h] s1 t1]; cbn; [| discriminate].
  intros H. exists a. auto.
Qed.

Lemma fold_max_ge (xs : list Z) (acc t : Z) :
  t <= acc \/ In t xs -> t <= fold_left Z.max xs acc.
Proof.
  revert acc. induction xs as [|x xs IH]; intros acc Hin; cbn in *.
  - destruct Hin as [H | []]; exact H.
  - apply IH. destruct Hin as [H | [-> | Hin]]; [left; lia | left; lia | right; exact Hin].
Qed.

Lemma py_max_ge (ts : list Z) (t : Z) : In t ts -> t <= py_max ts.
Proof.
  destruct ts as [|x xs]; [intros [] |].
  intros [-> | Hin]; apply fold_max_ge; [left; lia | right; exact Hin].
Qed.

Lemma in_prune (now t : Z) (ts : list Z) :
  In t (prune now ts) <-> In t ts /\ now - t < window.
Proof. unfold prune. rewrite filter_In. rewrite Z.ltb_lt. reflexivity. Qed.

Lemma prune_length_mono (c1 c2 : Z) (ts : list Z) :
  c1 <= c2 -> (length (prune c2 ts) <= length (prune c1 ts))%nat.
Proof.
  intros Hc. unfold prune in *. induction ts as [|t ts IH]; cbn; [lia |].
  destruct (Z.ltb_spec (c2 - t) window); destruct (Z.ltb_spec (c1 - t) window);
    cbn; lia.
Qed.

(** What [check_rate_limit] does to the clock: nothing with no recent
    request, else it brings the clock to at least 5 s past the newest
    time stamp of the window. *)
Lemma check_rate_limit_clock e s :
  let ts := prune (clock s) (rate_entries (rate_log s)) in
  clock (world_of (check_rate_limit e s)) =
    match ts with [] => clock s | _ :: _ => Z.max (clock s) (py_max ts + MIN_INTERVAL_SECONDS) end.
Proof.
  cbv zeta. destruct (rate_history (rate_log s)) as [ts0|] eqn:Hh.
  2:{ rewrite (rate_history_none_entries _ Hh).
      destruct (check_rate_limit_crash e s Hh) as [x ->]. reflexivity. }
  rewrite (rate_history_entries _ _ Hh), (check_rate_limit_run e s ts0 Hh). cbv zeta.
  destruct (prune (clock s) ts0) as [|t ts];
    [destruct (MAX_REQUESTS_PER_HOUR <=? _); reflexivity |].
  destruct (Z.ltb_spec (clock s - py_max (t :: ts)) MIN_INTERVAL_SECONDS);
    destruct (MAX_REQUESTS_PER_HOUR <=? _); cbn [clock world_of];
    unfold MIN_INTERVAL_SECONDS in *; lia.
Qed.


(** The log a successful run leaves behind, relative to the starting
    state [s0]: the time stamps [l] of the starting log within the hour
    before [now], all of them and in their order, then the request's own
    time stamp [now]. *)
Definition well_spaced_record (s0 : state) (f : rate_file) : Prop :=
  exists l now,
    l = prune now (rate_entries (rate_log s0)) /\
    f = RFList (app l [now]) /\ clock s0 <= now /\
    Z.of_nat (length (app l [now])) <= MAX_REQUESTS_PER_HOUR /\
    forall t, In t l ->
      In t (rate_entries (rate_log s0)) /\ now - t < window /\ t + MIN_INTERVAL_SECONDS <= now.

Lemma check_rate_limit_ok_facts e s :
  res_of (check_rate_limit e s) = Ok tt ->
  rate_history (rate_log s) = Some (rate_entries (rate_log s)) /\
  Z.of_nat (length (prune (clock s) (rate_entries (rate_log s)))) < MAX_REQUESTS_PER_HOUR /\
  rate_log (world_of (check_rate_limit e s)) = rate_log s.
Proof.
  intros H. destruct (rate_history (rate_log s)) as [ts0|] eqn:Hh.
  2:{ destruct (check_rate_limit_crash e s Hh) as [x Hx]. rewrite Hx in H. discriminate. }
  rewrite (rate_history_entries _ _ Hh).
  split; [reflexivity |]. split; [| apply benign_check_rate_limit].
  rewrite (check_rate_limit_run e s ts0 Hh) in H. cbv zeta in H.
  destruct (Z.leb_spec MAX_REQUESTS_PER_HOUR
              (Z.of_nat (length (prune (clock s) ts0)))) as [Hq | Hq];
    [discriminate | exact Hq].
Qed.

(** After a successful run the log holds at most 10 time stamps: the ones
    of the starting log still within the hour of the new request, each at
    least 5 s older than it, then the new request's own time stamp, taken
    no earlier than the start of the run. *)
Theorem main_pipeline_success_log input debug use_proxy (e : env) (s : state) r :
  res_of (main_pipeline input debug use_proxy e s) = Ok r ->
  well_spaced_record s (rate_log (world_of (main_pipeline input debug use_proxy e s))).
Proof.
  intros H. unfold main_pipeline in *.
  apply bind_ok in H as [[] [_ [H Hw]]]. rewrite Hw. clear Hw.
  set (s0 := world_of (set_proxy_force use_proxy e s)) in *.
  assert (Hs0 : clock s0 = clock s /\ rate_log s0 = rate_log s) by (split; reflexivity).
  clearbody s0. destruct Hs0 as [Hs0c Hs0l].
  apply bind_ok in H as [input_str [_ [H Hw]]]. rewrite Hw. clear Hw.
  set (s1 := world_of (_ e s0)) in *.
  assert (Hs1 : s1 = s0).
  { subst s1. destruct input as [i'|]; [destruct (py_not_str i') |]; reflexivity. }
  clearbody s1. subst s1.
  apply bind_ok in H as [[] [Hc [H Hw]]]. rewrite Hw. clear Hw.
  destruct (check_rate_limit_ok_facts e s0 Hc) as [Hh [Hq Hcl]].
  pose proof (check_rate_limit_clock e s0) as Hck. cbv zeta in Hck.
  set (s2 := world_of (check_rate_limit e s0)) in *. clearbody s2.
  apply bind_ok in H as [loc [_ [H Hw]]]. rewrite Hw. clear Hw.
  destruct (clock_kept_is_local_file input_str e s2) as [Hc3 Hl3].
  set (s3 := world_of (is_local_file input_str e s2)) in *. clearbody s3.
  apply bind_ok in H as [acq [_ [H Hw]]]. rewrite Hw. clear Hw.
  assert (Hacq : clock_kept (if loc then
                     let* c := extract_text_from_pdf input_str in
                     let* r := ask (fun e => path_resolve e input_str) in
                     ret (c, None, "file://" ++ r)
                   else
                     let* ct := extract_text_from_url input_str in
                     ret (fst ct, snd ct, input_str))).
  { destruct loc; (apply clock_kept_bind; [| intro; cbv beta]);
      [apply clock_kept_extract_text_from_pdf | clock_kept_tac
      | apply clock_kept_extract_text_from_url | clock_kept_tac]. }
  destruct (Hacq e s3) as [Hc4 Hl4].
  set (s4 := world_of (_ e s3)) in *. clearbody s4. clear Hacq.
  destruct acq as [[text page_title] url].
  apply bind_ok in H as [summary [_ [H Hw]]]. rewrite Hw. clear Hw.
  destruct (clock_kept_summarize_content text debug e s4) as [Hc5 Hl5].
  set (s5 := world_of (summarize_content text debug e s4)) in *. clearbody s5.
  apply bind_ok in H as [[] [_ [_ Hw]]]. rewrite Hw. clear Hw.
  cbn [ret world_of]. rewrite record_request_log.
  set (L := rate_entries (rate_log s)).
  assert (HL : rate_history (rate_log s5) = Some L)
    by (subst L; rewrite Hl5, Hl4, Hl3, Hcl, <- Hs0l; exact Hh).
  assert (HL0 : rate_entries (rate_log s0) = L) by (subst L; rewrite Hs0l; reflexivity).
  rewrite HL. rewrite HL0 in Hq, Hck.
  assert (Hle : clock s0 <= clock s5).
  { rewrite Hc5, Hc4, Hc3, Hck. destruct (prune (clock s0) L); lia. }
  exists (prune (clock s5) L), (clock s5).
  split; [reflexivity |]. split; [reflexivity |].
  split; [rewrite <- Hs0c; exact Hle |]. split.
  - rewrite length_app. cbn [length].
    pose proof (prune_length_mono (clock s0) (clock s5) L Hle).
    unfold MAX_REQUESTS_PER_HOUR in *. lia.
  - intros t Ht. apply in_prune in Ht as [HtL Htw].
    split; [exact HtL |]. split; [exact Htw |].
    assert (Ht0 : In t (prune (clock s0) L)) by (apply in_prune; split; [exact HtL | unfold window in *; lia]).
    pose proof (py_max_ge _ _ Ht0) as Hm.
    assert (H5 : py_max (prune (clock s0) L) + MIN_INTERVAL_SECONDS <= clock s5).
    { rewrite Hc5, Hc4, Hc3, Hck.
      destruct (prune (clock s0) L); [destruct Ht0 | lia]. }
    lia.
Qed.

Lemma main_pipeline_success_log_witness :
  let e := test_env PFMissing None (String.concat "" (repeat "word " 20)) ok_summary in
  let s := mkState 5000 (RFList [10; 4000; 4998]) None in
  res_of (main_pipeline (Some "https://example.com/post") false None e s)
    = Ok (JStr "gist", "https://example.com/post", None) /\
  well_spaced_record s (rate_log (world_of (main_pipeline (Some "https://example.com/post") false None e s))).
Proof.
  cbv zeta. split; [vm_compute; reflexivity |].
  apply (main_pipeline_success_log (Some "https://example.com/post") false None
           (test_env PFMissing None (String.concat "" (repeat "word " 20)) ok_summary)
           (mkState 5000 (RFList [10; 4000; 4998]) None)
           (JStr "gist", "https://example.com/post", None)).
  vm_compute. reflexivity.
Defined.

(* ------------------------------------------------------------------ *)
(** ** Academic URL rewriting: html pages and soundness *)

(** An arXiv html page URL is rewritten like an abstract URL. *)
Theorem rewrite_html_url (scheme id q : string) :
  (scheme = "http" \/ scheme = "https") -> id <> "" ->
  str_forall id_char id = true -> query_part q ->
  rewrite_to_pdf_url (scheme ++ "://arxiv.org/html/" ++ id ++ q) =
    Some ("https://arxiv.org/pdf/" ++ id).
Proof.
  intros Hs Hne Hid Hq. unfold rewrite_to_pdf_url, arxiv_match.
  assert (Hr : scheme_rest (scheme ++ "://arxiv.org/html/" ++ id ++ q) =
               Some ("arxiv.org/html/" ++ id ++ q)).
  { destruct Hs as [-> | ->]; reflexivity. }
  rewrite Hr. cbn [strip_prefix append Ascii.eqb Bool.eqb andb].
  rewrite (lazy_group_id id q "" Hne Hid Hq). reflexivity.
Qed.

Lemma rewrite_html_url_witness :
  ("https" = "http" \/ "https" = "https") /\ "2301.00001v2" <> "" /\
  str_forall id_char "2301.00001v2" = true /\ query_part "" /\
  rewrite_to_pdf_url ("https" ++ "://arxiv.org/html/" ++ "2301.00001v2" ++ "") =
    Some ("https://arxiv.org/pdf/" ++ "2301.00001v2").
Proof.
  split; [right; reflexivity |]. split; [discriminate |]. split; [reflexivity |].
  split; [left; reflexivity |].
  apply rewrite_html_url; [right; reflexivity | discriminate | reflexivity | left; reflexivity].
Defined.

Lemma strip_prefix_sound (p s r : string) : strip_prefix p s = Some r -> s = p ++ r.
Proof.
  revert s. induction p as [|a p IH]; intros s H; cbn in H.
  - injection H as <-. reflexivity.
  - destruct s as [|b s]; [discriminate |].
    destruct (Ascii.eqb_spec a b) as [<- |]; [| discriminate].
    cbn. f_equal. apply IH. exact H.
Qed.

Lemma scheme_rest_sound (url r : string) :
  scheme_rest url = Some r ->
  exists sc, (sc = "http" \/ sc = "https") /\ url = sc ++ "://" ++ r.
Proof.
  unfold scheme_rest. destruct (strip_prefix "https://" url) as [r'|] eqn:E.
  - intros H. injection H as <-. apply strip_prefix_sound in E.
    exists "https". split; [right; reflexivity | exact E].
  - intros H. apply strip_prefix_sound in H.
    exists "http". split; [left; reflexivity | exact H].
Qed.

Lemma lazy_group_sound (acc s r : string) :
  lazy_group acc s = Some r ->
  exists g rest, s = g ++ rest /\ r = acc ++ g /\ g <> "" /\
                 no_nl g = true /\ query_then_end rest = true.
Proof.
  revert acc. induction s as [|c s IH]; intros acc H; cbn in H; [discriminate |].
  destruct (Ascii.eqb c NL) eqn:Ec; [discriminate |].
  assert (Hc : no_nl (String c "") = true) by (unfold no_nl; cbn; rewrite Ec; reflexivity).
  destruct (query_then_end s) eqn:Eq.
  - injection H as <-. exists (String c ""), s.
    split; [reflexivity |]. split; [reflexivity |]. split; [discriminate |]. auto.
  - destruct (IH _ H) as [g [rest [Hs [Hr [Hg [Hn Hq]]]]]].
    exists (String c g), rest. split; [cbn; congruence |].
    split; [rewrite Hr, string_app_assoc; reflexivity |].
    split; [discriminate |]. split; [| exact Hq].
    unfold no_nl in *. cbn. rewrite Ec. exact Hn.
Qed.

Lemma arxiv_match_sound (kind url g : string) :
  arxiv_match kind url = Some g ->
  exists sc rest, (sc = "http" \/ sc = "https") /\
    url = sc ++ "://arxiv.org/" ++ kind ++ "/" ++ g ++ rest /\
    g <> "" /\ no_nl g = true /\ query_then_end rest = true.
Proof.
  unfold arxiv_match.
  destruct (scheme_rest url) as [r|] eqn:E1; [| discriminate].
  destruct (strip_prefix ("arxiv.org/" ++ kind ++ "/") r) as [r'|] eqn:E2; [| discriminate].
  intros H3.
  destruct (scheme_rest_sound _ _ E1) as [sc [Hsc Hu]].
  apply strip_prefix_sound in E2.
  destruct (lazy_group_sound _ _ _ H3) as [g' [rest [Hr' [Hg [Hne [Hn Hq]]]]]].
  cbn in Hg. subst g'.
  exists sc, rest. split; [exact Hsc |]. split; [| auto].
  rewrite Hu, E2, Hr', !string_app_assoc. reflexivity.
Qed.

Lemma rewrite_target_fixed (g : string) :
  rewrite_to_pdf_url ("https://arxiv.org/pdf/" ++ g) = None.
Proof. reflexivity. Qed.

(** Every rewrite is an arXiv [abs] or [html] URL whose non-empty,
    newline-free identifier is followed by what the optional query group
    and [$] accept, and its result is the PDF URL of that identifier, which
    is not rewritten again. *)
Theorem rewrite_to_pdf_url_sound (url p : string) :
  rewrite_to_pdf_url url = Some p ->
  exists sc kind g rest,
    (sc = "http" \/ sc = "https") /\ (kind = "abs" \/ kind = "html") /\
    url = sc ++ "://arxiv.org/" ++ kind ++ "/" ++ g ++ rest /\
    p = "https://arxiv.org/pdf/" ++ g /\
    g <> "" /\ no_nl g = true /\ query_then_end rest = true /\
    rewrite_to_pdf_url p = None.
Proof.
  unfold rewrite_to_pdf_url at 1.
  destruct (arxiv_match "abs" url) as [g|] eqn:E1.
  - intros H. injection H as <-.
    destruct (arxiv_match_sound _ _ _ E1) as [sc [rest [Hsc [Hu [Hne [Hn Hq]]]]]].
    exists sc, "abs", g, rest. repeat split; auto using rewrite_target_fixed.
  - destruct (arxiv_match "html" url) as [g|] eqn:E2; [| discriminate].
    intros H. injection H as <-.
    destruct (arxiv_match_sound _ _ _ E2) as [sc [rest [Hsc [Hu [Hne [Hn Hq]]]]]].
    exists sc, "html", g, rest. repeat split; auto using rewrite_target_fixed.
Qed.

Lemma rewrite_to_pdf_url_sound_witness :
  rewrite_to_pdf_url "http://arxiv.org/html/2301.00001v2?x=1" = Some "https://arxiv.org/pdf/2301.00001v2" /\
  exists sc kind g rest,
    (sc = "http" \/ sc = "https") /\ (kind = "abs" \/ kind = "html") /\
    "http://arxiv.org/html/2301.00001v2?x=1" = sc ++ "://arxiv.org/" ++ kind ++ "/" ++ g ++ rest /\
    "https://arxiv.org/pdf/2301.00001v2" = "https://arxiv.org/pdf/" ++ g /\
    g <> "" /\ no_nl g = true /\ query_then_end rest = true /\
    rewrite_to_pdf_url "https://arxiv.org/pdf/2301.00001v2" = None.
Proof.
  split; [reflexivity |].
  apply rewrite_to_pdf_url_sound. reflexivity.
Defined.

(* ------------------------------------------------------------------ *)
(** ** Content extraction: low-content warnings *)





(** [resp.ok] is false exactly for a status in 400..599. *)
Lemma resp_ok_false_iff (r : response) :
  resp_ok r = false <-> 400 <= status_code r < 600.
Proof.
  unfold resp_ok. rewrite negb_false_iff, andb_true_iff, Z.leb_le, Z.ltb_lt. reflexivity.
Qed.

(** [summarize_content], once the proxy lookup succeeded: HTTP 429 exits
    with status 1 after the rate-limit message (not the generic error), any
    other status that is not [ok] -- a status in 400..599 -- exits with
    status 1 after the generic API error, and an [ok] answer whose JSON
    object has a truthy [summary] returns that summary unchanged; the state
    is left unchanged. *)
Theorem summarize_content_outcomes (text : string) (debug : bool) (e : env) (s : state) p :
  res_of (get_proxy e s) = Ok p ->
  let r := http_post e text in
  let o := summarize_content text debug e s in
  world_of o = s /\
  (status_code r = 429 ->
     res_of o = Halt (SysExit 1 "") /\
     In (EvStderr "Error: rate limited by Gistify API. Try again later.") (trace_of o) /\
     ~ In (EvStderr "Gistify API error") (trace_of o)) /\
  (resp_ok r = false <-> 400 <= status_code r < 600) /\
  (status_code r <> 429 -> resp_ok r = false ->
     res_of o = Halt (SysExit 1 "") /\ In (EvStderr "Gistify API error") (trace_of o)) /\
  (forall kv, resp_ok r = true -> json_body r = Some (JObj kv) ->
     truthy (dict_get kv "summary" (JStr "")) = true ->
     res_of o = Ok (dict_get kv "summary" (JStr ""))).
Proof.
  intros Hp. cbv zeta.
  unfold summarize_content, py_get, bind, emit, ask, ret, sys_exit, raise, halt_with.
  cbn -[get_proxy resp_ok].
  destruct (quiet_get_proxy e s) as [Hw Ht].
  destruct (get_proxy e s) as [[p'|h] s1 t1]; cbn in Hp, Hw, Ht; [| discriminate]. subst.
  pose proof (resp_ok_false_iff (http_post e text)) as Hiff.
  destruct (Z.eqb_spec (status_code (http_post e text)) 429) as [E429 | N429];
    destruct (resp_ok (http_post e text)) eqn:Eok; destruct debug;
    cbn [negb res_of world_of trace_of app].
  1-2: exfalso; rewrite E429 in Hiff;
    assert (Hf : true = false) by (apply Hiff; lia); discriminate.
  1-2: split; [reflexivity |]; split;
    [ intros _; split; [reflexivity |]; cbn [In]; split; [intuition congruence |];
      intros Hn; intuition congruence |];
    split; [exact Hiff |];
    split; [intros H; contradiction |]; intros kv H; discriminate.
  1-2: split;
    [ destruct (json_body (http_post e text)) as [[]|]; cbn;
      try destruct (negb (truthy (dict_get _ "summary" (JStr "")))); reflexivity |];
    split; [intros H; contradiction |]; split; [exact Hiff |];
    split; [intros _ H; discriminate |];
    intros kv _ Hj Hs; rewrite Hj; cbn; rewrite Hs; reflexivity.
  1-2: split; [reflexivity |]; split; [intros H; contradiction |];
    split; [exact Hiff |];
    split; [intros _ _; split; [reflexivity | cbn [In]; intuition congruence] |];
    intros kv H; discriminate.
Qed.

Lemma summarize_content_outcomes_witness :
  let e := test_env PFMissing None "" ok_summary in
  let s := mkState 0 RFMissing None in
  res_of (get_proxy e s) = Ok None /\
  res_of (summarize_content "article" false e s) = Ok (JStr "gist").
Proof.
  cbv zeta. split; [reflexivity |].
  destruct (summarize_content_outcomes "article" false
              (test_env PFMissing None "" ok_summary) (mkState 0 RFMissing None)
              None eq_refl) as [_ [_ [_ [_ H]]]].
  apply (H [("summary", JStr "gist")]); [vm_compute; reflexivity | reflexivity | reflexivity].
Defined.

(** Without an input (absent or empty) [main] exits with status 2 before
    any rate-limit check, probe, request or output, and leaves the clock
    and the rate-limit log as they were. *)
Theorem main_pipeline_no_input debug use_proxy (e : env) (s : state) :
  forall input, (input = None \/ input = Some "") ->
  let o := main_pipeline input debug use_proxy e s in
  res_of o = Halt (SysExit 2 "Please provide a URL or PDF file path") /\
  exit_status (SysExit 2 "Please provide a URL or PDF file path") = 2 /\
  trace_of o = [] /\ clock (world_of o) = clock s /\ rate_log (world_of o) = rate_log s.
Proof.
  intros input [-> | ->]; cbv zeta; repeat split.
Qed.

Lemma main_pipeline_no_input_witness :
  res_of (main_pipeline (Some "") false None (test_env PFMissing None "" ok_summary)
            (mkState 7 (RFList [1]) None))
    = Halt (SysExit 2 "Please provide a URL or PDF file path").
Proof.
  destruct (main_pipeline_no_input false None (test_env PFMissing None "" ok_summary)
              (mkState 7 (RFList [1]) None) (Some "") (or_intror eq_refl)) as [H _].
  exact H.
Defined.

(* ------------------------------------------------------------------ *)
(** ** Waiting for a Cloudflare challenge

    [_wait_for_cloudflare(page, timeout_seconds=30)].  The page is seen
    through [page_at now], its title and [text_content(body)] at time
    [now]; [str.lower] is taken on ASCII text. *)

Definition py_lower (s : string) : string :=
  string_of_list_ascii (map py_lower_char (list_ascii_of_string s)).

(** [needle in hay] *)
Fixpoint py_in (needle hay : string) : bool :=
  String.prefix needle hay ||
  match hay with
  | EmptyString => false
  | String _ hay' => py_in needle hay'
  end.

Definition CF_MSG : string := "Cloudflare challenge detected, waiting for it to resolve...".

(** [title = page.title().lower(); body_text = page.text_content(body) or ''];
    the test of the loop body. *)
Definition is_challenge (title : string) (body : option string) : bool :=
  let body_text := match body with Some b => b | None => "" end in
  py_in "just a moment" (py_lower title) || py_in "checking your browser" (py_lower body_text).

(** The [while] loop, one iteration per unit of fuel. *)
Fixpoint cf_loop (fuel : nat) (page_at : Z -> string * option string) (start timeout : Z)
  : M unit :=
  match fuel with
  | O => ret tt
  | S f =>
      let* now := time_time in
      if now - start <? timeout then
        let tb := page_at now in
        if is_challenge (fst tb) (snd tb) then
          emit (EvStdout CF_MSG);;
          sleep 2;;
          cf_loop f page_at start timeout
        else ret tt
      else ret tt
  end.

(** Each iteration that continues sleeps 2 s, so [timeout + 1] iterations
    cover every run; [cf_loop_enough_fuel] shows more fuel changes
    nothing. *)
Definition wait_for_cloudflare (page_at : Z -> string * option string) (timeout_seconds : Z)
  : M unit :=
  let* start := time_time in
  cf_loop (S (Z.to_nat timeout_seconds)) page_at start timeout_seconds.

Lemma cf_loop_step n page_at start timeout e s :
  cf_loop (S n) page_at start timeout e s =
    if clock s - start <? timeout then
      if is_challenge (fst (page_at (clock s))) (snd (page_at (clock s))) then
        let o := cf_loop n page_at start timeout e
                   (mkState (clock s + 2) (rate_log s) (proxy_force s)) in
        mkOut (res_of o) (world_of o) (EvStdout CF_MSG :: EvSleep 2 :: trace_of o)
      else mkOut (Ok tt) s []
    else mkOut (Ok tt) s [].
Proof.
  cbn [cf_loop]. unfold bind, time_time, gets, emit, sleep, ret. cbn [res_of world_of trace_of app].
  destruct (clock s - start <? timeout); [| reflexivity].
  destruct (is_challenge _ _); reflexivity.
Qed.

Lemma cf_loop_shape page_at start timeout e :
  forall n s, Z.of_nat n >= start + timeout - clock s ->
  let o := cf_loop (S n) page_at start timeout e s in
  exists k,
    trace_of o = concat (repeat [EvStdout CF_MSG; EvSleep 2] k) /\
    world_of o = mkState (clock s + 2 * Z.of_nat k) (rate_log s) (proxy_force s) /\
    res_of o = Ok tt /\
    (timeout <= clock (world_of o) - start \/
     is_challenge (fst (page_at (clock (world_of o)))) (snd (page_at (clock (world_of o)))) = false) /\
    clock (world_of o) <= Z.max (clock s) (start + timeout + 1) /\
    cf_loop (S (S n)) page_at start timeout e s = o.
Proof.
  induction n as [|n IH]; intros s Hf; cbv zeta.
  - rewrite (cf_loop_step 1 page_at start timeout e s), (cf_loop_step 0 page_at start timeout e s).
    destruct (Z.ltb_spec (clock s - start) timeout); [lia |].
    exists O. cbn. destruct s; cbn in *. repeat split; [f_equal; lia | left; lia | lia].
  - rewrite (cf_loop_step (S (S n)) page_at start timeout e s),
      (cf_loop_step (S n) page_at start timeout e s).
    destruct (Z.ltb_spec (clock s - start) timeout).
    2: { exists O. cbn. destruct s; cbn in *. repeat split; [f_equal; lia | left; lia | lia]. }
    destruct (is_challenge _ _) eqn:Ech.
    2: { exists O. cbn. destruct s; cbn in *. repeat split; [f_equal; lia | right; exact Ech | lia]. }
    set (s' := mkState (clock s + 2) (rate_log s) (proxy_force s)).
    destruct (IH s' ltac:(cbn; lia)) as [k [Ht [Hw [Hr [Hend [Hb Hfuel]]]]]].
    cbv zeta in Hfuel. rewrite Hfuel.
    exists (S k). cbn [res_of world_of trace_of]. rewrite Ht, Hw, Hr.
    rewrite Hw in Hend, Hb. subst s'. cbn [clock rate_log proxy_force] in Hend, Hb |- *.
    split; [reflexivity |]. split; [f_equal; lia |]. split; [reflexivity |].
    split; [destruct Hend; [left; lia | right; assumption] |]. split; [lia | reflexivity].
Qed.

Lemma cf_loop_enough_fuel page_at start timeout e n s :
  Z.of_nat n >= start + timeout - clock s ->
  cf_loop (S (S n)) page_at start timeout e s = cf_loop (S n) page_at start timeout e s.
Proof.
  intros Hf. destruct (cf_loop_shape page_at start timeout e n s Hf)
    as [k [_ [_ [_ [_ [_ H]]]]]]. exact H.
Qed.

(** [_wait_for_cloudflare] prints the challenge message and sleeps 2 s
    some [k] times, with [2 k <= timeout_seconds + 1]: at most
    [ceil(timeout_seconds / 2)] rounds, as every round starts before the
    deadline and the rounds before it slept [2 (k - 1)] seconds.  It leaves
    the rate-limit log alone, and when it returns either the deadline had
    passed at the last check or the page showed no challenge then.  One
    more unit of fuel would not change the run. *)
Theorem wait_for_cloudflare_bounded page_at (timeout_seconds : Z) (e : env) (s : state) :
  let o := wait_for_cloudflare page_at timeout_seconds e s in
  exists k,
    trace_of o = concat (repeat [EvStdout CF_MSG; EvSleep 2] k) /\
    2 * Z.of_nat k <= Z.max 0 (timeout_seconds + 1) /\
    rate_log (world_of o) = rate_log s /\
    (timeout_seconds <= clock (world_of o) - clock s \/
     is_challenge (fst (page_at (clock (world_of o)))) (snd (page_at (clock (world_of o)))) = false) /\
    cf_loop (S (S (Z.to_nat timeout_seconds))) page_at (clock s) timeout_seconds e s =
      cf_loop (S (Z.to_nat timeout_seconds)) page_at (clock s) timeout_seconds e s.
Proof.
  cbv zeta. unfold wait_for_cloudflare, bind, time_time, gets.
  cbn [res_of world_of trace_of app].
  assert (Hf : Z.of_nat (Z.to_nat timeout_seconds) >= clock s + timeout_seconds - clock s) by lia.
  destruct (cf_loop_shape page_at (clock s) timeout_seconds e _ s Hf)
    as [k [Ht [Hw [Hr [Hend [Hb Hfuel]]]]]].
  cbv zeta in *.
  exists k. rewrite Ht, Hw. cbn [clock rate_log]. rewrite Hw in Hend, Hb. cbn [clock] in Hend, Hb.
  split; [reflexivity |]. split; [lia |]. split; [reflexivity |].
  split; [destruct Hend; [left; lia | right; assumption] |].
  exact Hfuel.
Qed.

(** The page shows no challenge when the wait starts: it returns at once,
    printing and sleeping nothing. *)
Theorem wait_for_cloudflare_no_challenge page_at (timeout_seconds : Z) (e : env) (s : state) :
  is_challenge (fst (page_at (clock s))) (snd (page_at (clock s))) = false ->
  let o := wait_for_cloudflare page_at timeout_seconds e s in
  res_of o = Ok tt /\ world_of o = s /\ trace_of o = [].
Proof.
  intros H. cbv zeta. unfold wait_for_cloudflare, bind, time_time, gets.
  cbn [res_of world_of trace_of app]. rewrite cf_loop_step.
  destruct (_ <? _); [rewrite H |]; repeat split.
Qed.

Definition challenge_until (t_end : Z) (now : Z) : string * option string :=
  if now <? t_end then ("Just a moment...", None) else ("Article", Some "body").

Lemma wait_for_cloudflare_no_challenge_witness :
  is_challenge (fst (challenge_until 0 100)) (snd (challenge_until 0 100)) = false /\
  trace_of (wait_for_cloudflare (challenge_until 0) 30 (test_env PFMissing None "" ok_summary)
              (mkState 100 RFMissing None)) = [].
Proof.
  split; [vm_compute; reflexivity |].
  apply (wait_for_cloudflare_no_challenge (challenge_until 0) 30
           (test_env PFMissing None "" ok_summary) (mkState 100 RFMissing None)).
  vm_compute. reflexivity.
Defined.

Example wait_for_cloudflare_resolves :
  let o := wait_for_cloudflare (challenge_until 105) 30 (test_env PFMissing None "" ok_summary)
             (mkState 100 RFMissing None) in
  clock (world_of o) = 106 /\ length (trace_of o) = 6%nat.
Proof. vm_compute. split; reflexivity. Qed.

Example wait_for_cloudflare_times_out :
  clock (world_of (wait_for_cloudflare (challenge_until 1000) 30
           (test_env PFMissing None "" ok_summary) (mkState 100 RFMissing None))) = 130.
Proof. vm_compute. reflexivity. Qed.

(* ------------------------------------------------------------------ *)
(** ** The output path of [main] *)

(** [out_path] in [main]: [Path(args.output)] when [--output] is given
    (non-empty), else [output/<slug>.md] beside the script, with
    [slugify(page_title or 'summary')]. *)
Definition output_path (script_dir : string) (output : option string)
    (page_title : option string) : string :=
  let default :=
    let t := match page_title with
             | Some t => if py_not_str t then "summary" else t
             | None => "summary" end in
    script_dir ++ "/output/" ++ slugify t ++ ".md" in
  match output with
  | Some o => if py_not_str o then default else o
  | None => default
  end.

(** Without [--output] the Markdown file goes directly into the [output]
    directory beside the script, under a name of [a-z0-9-] characters (so
    no [/] and no [..]) that is non-empty and at most 80 long, followed by
    [.md]; with no page title it is [summary.md]. *)
Theorem output_path_default_confined script_dir output page_title :
  (output = None \/ output = Some "") ->
  exists slug,
    output_path script_dir output page_title = script_dir ++ "/output/" ++ slug ++ ".md" /\
    slug_shape (list_ascii_of_string slug) /\
    ((page_title = None \/ page_title = Some "") -> slug = "summary").
Proof.
  intros Ho.
  set (t := match page_title with
            | Some t => if py_not_str t then "summary" else t
            | None => "summary" end).
  exists (slugify t). split; [| split].
  - unfold output_path. fold t. destruct Ho as [-> | ->]; reflexivity.
  - apply slugify_shape.
  - intros [-> | ->]; reflexivity.
Qed.

Lemma output_path_default_confined_witness :
  output_path "/opt/gistify" None (Some "A Study: Part 2") = "/opt/gistify/output/a-study-part-2.md" /\
  exists slug,
    output_path "/opt/gistify" None (Some "A Study: Part 2") = "/opt/gistify" ++ "/output/" ++ slug ++ ".md" /\
    slug_shape (list_ascii_of_string slug) /\
    ((Some "A Study: Part 2" = None \/ Some "A Study: Part 2" = Some "") -> slug = "summary").
Proof.
  split; [vm_compute; reflexivity |].
  apply output_path_default_confined. left; reflexivity.
Defined.
